(** * Operand ownership classification (lib/SIL/IR/OperandOwnership.cpp)

    A shallow embedding of [OperandOwnershipKindClassifier] and
    [OperandOwnershipKindBuiltinClassifier]: for an operand of a SIL
    instruction, the map from the ownership kinds the operand accepts to the
    lifetime constraint the use places on its value. *)

From Stdlib Require Import String List Bool Arith Lia.
Import ListNotations.
Open Scope string_scope.

(* ------------------------------------------------------------------------- *)
(** ** Ownership kinds, lifetime constraints and compatibility maps *)

(** Modelled from the spec: [ValueOwnershipKind] (declared in SILValue.h, not
    part of this file) is the closed enumeration None / Owned / Guaranteed. *)
Inductive ValueOwnershipKind : Type :=
| None
| Owned
| Guaranteed.

Definition kind_eqb (a b : ValueOwnershipKind) : bool :=
  match a, b with
  | None, None | Owned, Owned | Guaranteed, Guaranteed => true
  | _, _ => false
  end.

Lemma kind_eqb_eq : forall a b, kind_eqb a b = true <-> a = b.
Proof. intros [] []; simpl; split; congruence. Qed.

Inductive UseLifetimeConstraint : Type :=
| LifetimeEnding
| NonLifetimeEnding.

Definition constraint_eqb (a b : UseLifetimeConstraint) : bool :=
  match a, b with
  | LifetimeEnding, LifetimeEnding | NonLifetimeEnding, NonLifetimeEnding => true
  | _, _ => false
  end.

(** Modelled from the spec: [OperandOwnershipKindMap] (SILValue.h). One slot
    per ownership kind: [Some c] when the kind is accepted with lifetime
    constraint [c], [None] (Rocq's option) when it is not. A kind is never
    bound to two constraints. *)
Record OperandOwnershipKindMap : Type := mkMap {
  map_none : option UseLifetimeConstraint;
  map_owned : option UseLifetimeConstraint;
  map_guaranteed : option UseLifetimeConstraint
}.

(** [Map()]: compatible with no ownership kind. *)
Definition emptyMap : OperandOwnershipKindMap :=
  mkMap Datatypes.None Datatypes.None Datatypes.None.

(** [Map::allLive()]: every kind accepted, none lifetime ending. *)
Definition allLive : OperandOwnershipKindMap :=
  mkMap (Some NonLifetimeEnding) (Some NonLifetimeEnding) (Some NonLifetimeEnding).

(** The constraint the map binds to [k], if it accepts [k]. *)
Definition getLifetimeConstraint (m : OperandOwnershipKindMap)
  (k : ValueOwnershipKind) : option UseLifetimeConstraint :=
  match k with
  | None => map_none m
  | Owned => map_owned m
  | Guaranteed => map_guaranteed m
  end.

Definition canAcceptKind (m : OperandOwnershipKindMap) (k : ValueOwnershipKind) : bool :=
  match getLifetimeConstraint m k with Some _ => true | Datatypes.None => false end.

(** [add]: binds [k] to [c], replacing an earlier binding of [k]. *)
Definition add (m : OperandOwnershipKindMap) (k : ValueOwnershipKind)
  (c : UseLifetimeConstraint) : OperandOwnershipKindMap :=
  match k with
  | None => mkMap (Some c) (map_owned m) (map_guaranteed m)
  | Owned => mkMap (map_none m) (Some c) (map_guaranteed m)
  | Guaranteed => mkMap (map_none m) (map_owned m) (Some c)
  end.

Definition addCompatibilityConstraint := add.

(** [Map::compatibilityMap(kind, constraint)]: the single-entry map. *)
Definition compatibilityMap (k : ValueOwnershipKind) (c : UseLifetimeConstraint)
  : OperandOwnershipKindMap :=
  addCompatibilityConstraint emptyMap k c.

(** [Map::compatibilityMap({{k1, c1}, {k2, c2}, ...})]. *)
Definition compatibilityMapList
  (entries : list (ValueOwnershipKind * UseLifetimeConstraint)) : OperandOwnershipKindMap :=
  fold_left (fun m e => addCompatibilityConstraint m (fst e) (snd e)) entries emptyMap.

Definition map_eqb (a b : OperandOwnershipKindMap) : bool :=
  let oeq x y := match x, y with
                 | Some c, Some d => constraint_eqb c d
                 | Datatypes.None, Datatypes.None => true
                 | _, _ => false
                 end in
  oeq (map_none a) (map_none b) && oeq (map_owned a) (map_owned b)
  && oeq (map_guaranteed a) (map_guaranteed b).

(** Modelled from the spec: [ValueOwnershipKind::merge] of two kinds, the
    lattice join; [None] is the bottom and Owned/Guaranteed have no join. *)
Definition merge2 (a b : ValueOwnershipKind) : option ValueOwnershipKind :=
  match a, b with
  | None, k | k, None => Some k
  | Owned, Owned => Some Owned
  | Guaranteed, Guaranteed => Some Guaranteed
  | Owned, Guaranteed | Guaranteed, Owned => Datatypes.None
  end.

(** Modelled from the spec: [ValueOwnershipKind::merge] of a range, a fold of
    the join starting from [None]; a failed join makes the whole merge fail. *)
Definition merge (ks : list ValueOwnershipKind) : option ValueOwnershipKind :=
  fold_left (fun acc k => match acc with
                          | Some a => merge2 a k
                          | Datatypes.None => Datatypes.None
                          end) ks (Some None).

(** Modelled from the spec: [getForwardingLifetimeConstraint]: Owned is
    lifetime ending, Guaranteed and None are not. *)
Definition getForwardingLifetimeConstraint (k : ValueOwnershipKind) : UseLifetimeConstraint :=
  match k with
  | Owned => LifetimeEnding
  | None | Guaranteed => NonLifetimeEnding
  end.

(* ------------------------------------------------------------------------- *)
(** ** Calling conventions, values and operands *)

(** [ParameterConvention], the conventions switched over in [visitCallee],
    [visitFullApply] and [visitYieldInst]. *)
Inductive ParameterConvention : Type :=
| Indirect_In
| Indirect_In_Constant
| Indirect_Inout
| Indirect_InoutAliasable
| Indirect_In_Guaranteed
| Direct_Owned
| Direct_Unowned
| Direct_Guaranteed.

(** A [SILValue]: its identity, its ownership kind, whether its type is an
    address type and whether its type is trivial in the enclosing function.
    Two [SILValue]s compare equal ([==]) when they are the same value. *)
Record SILValue : Type := mkValue {
  value_id : nat;
  value_kind : ValueOwnershipKind;
  value_is_address : bool;
  value_is_trivial : bool
}.

Definition value_eqb (a b : SILValue) : bool :=
  Nat.eqb (value_id a) (value_id b) && kind_eqb (value_kind a) (value_kind b)
  && Bool.eqb (value_is_address a) (value_is_address b)
  && Bool.eqb (value_is_trivial a) (value_is_trivial b).

(** An [Operand]: the value it uses and whether it is a type-dependent
    operand of its user ([isTypeDependentOperand]). Its operand number is its
    position in the user's operand list. *)
Record Operand : Type := mkOperand {
  operand_value : SILValue;
  operand_type_dependent : bool
}.

(** What a full apply site ([apply], [try_apply], [begin_apply]) knows about
    its callee: the callee convention and escapingness of the substituted
    callee type, the number of indirect results, the parameter conventions,
    and whether the module uses lowered addresses. The operands are laid out
    as the callee (operand 0), the indirect results, the arguments, and then
    the type-dependent operands. *)
Record ApplySiteInfo : Type := mkApplySite {
  callee_convention : ParameterConvention;
  callee_is_noescape : bool;
  num_indirect_results : nat;
  param_conventions : list ParameterConvention;
  use_lowered_addresses : bool
}.

(* ------------------------------------------------------------------------- *)
(** ** Builtins *)

(** [BuiltinValueKind]: the builtins [OperandOwnershipKindBuiltinClassifier]
    names, the SIL-operation builtins of Builtins.def
    ([BUILTIN_SIL_OPERATION]) by name, and LLVM intrinsics by id. *)
Module BuiltinValueKind.
Inductive t : Type :=
  | ErrorInMain | UnexpectedError | WillThrow | AShr | GenericAShr | Add
  | GenericAdd | Alignof | AllocRaw | And | GenericAnd | AssertConf
  | AssignCopyArrayNoAlias | AssignCopyArrayFrontToBack
  | AssignCopyArrayBackToFront | AssignTakeArray | AssumeNonNegative
  | AssumeTrue | AtomicLoad | AtomicRMW | AtomicStore | BitCast
  | CanBeObjCClass | CondFailMessage | CmpXChg | CondUnreachable | CopyArray
  | DeallocRaw | DestroyArray | ExactSDiv | GenericExactSDiv | ExactUDiv
  | GenericExactUDiv | ExtractElement | FAdd | GenericFAdd | FCMP_OEQ
  | FCMP_OGE | FCMP_OGT | FCMP_OLE | FCMP_OLT | FCMP_ONE | FCMP_ORD
  | FCMP_UEQ | FCMP_UGE | FCMP_UGT | FCMP_ULE | FCMP_ULT | FCMP_UNE
  | FCMP_UNO | FDiv | GenericFDiv | FMul | GenericFMul | FNeg | FPExt
  | FPToSI | FPToUI | FPTrunc | FRem | GenericFRem | FSub | GenericFSub
  | Fence | GetObjCTypeEncoding | ICMP_EQ | ICMP_NE | ICMP_SGE | ICMP_SGT
  | ICMP_SLE | ICMP_SLT | ICMP_UGE | ICMP_UGT | ICMP_ULE | ICMP_ULT
  | InsertElement | IntToFPWithOverflow | IntToPtr | IsOptionalType | IsPOD
  | IsConcrete | IsBitwiseTakable | IsSameMetatype | LShr | GenericLShr | Mul
  | GenericMul | OnFastPath | Once | OnceWithContext | Or | GenericOr
  | PtrToInt | SAddOver | SDiv | GenericSDiv | SExt | SExtOrBitCast | SIToFP
  | SMulOver | SRem | GenericSRem | SSubOver | SToSCheckedTrunc
  | SToUCheckedTrunc | Expect | Shl | GenericShl | Sizeof | StaticReport
  | Strideof | StringObjectOr | Sub | GenericSub | TakeArrayNoAlias
  | TakeArrayBackToFront | TakeArrayFrontToBack | Trunc | TruncOrBitCast
  | TSanInoutAccess | UAddOver | UDiv | GenericUDiv | UIToFP | UMulOver
  | URem | GenericURem | USubOver | UToSCheckedTrunc | UToUCheckedTrunc
  | Unreachable | UnsafeGuaranteedEnd | Xor | GenericXor | ZExt
  | ZExtOrBitCast | ZeroInitializer | Swift3ImplicitObjCEntrypoint
  | PoundAssert | GlobalStringTablePointer | TypePtrAuthDiscriminator
  | IntInstrprofIncrement
  | COWBufferForReading | UnsafeGuaranteed | CancelAsyncTask
  | GetCurrentAsyncTask
  | BuiltinSILOperation (name : string)
  | LLVMIntrinsic (id : nat).
End BuiltinValueKind.

(* ------------------------------------------------------------------------- *)
(** ** SIL instructions *)

(** [SILInstructionKind]: every instruction the classifier visits, grouped as
    the source groups its visitors. The reference-storage instructions are the
    expansions of ReferenceStorage.def for [weak] (never loadable), [unowned]
    (sometimes loadable) and [unmanaged] (unchecked). Constructors carry what
    the visitor reads from the instruction besides its operands. *)
Module SILInstructionKind.
Inductive t : Type :=
  (* SHOULD_NEVER_VISIT_INST *)
  | AllocBox | AllocExistentialBox | AllocGlobal | AllocStack
  | DifferentiabilityWitnessFunction | FloatLiteral | FunctionRef
  | DynamicFunctionRef | PreviousDynamicFunctionRef | GlobalAddr | GlobalValue
  | BaseAddrForOffset | IntegerLiteral | Metatype | ObjCProtocol | RetainValue
  | RetainValueAddr | StringLiteral | StrongRetain | Unreachable | Unwind
  | ReleaseValue | ReleaseValueAddr | StrongRelease | GetAsyncContinuation
  | StrongRetainUnowned | UnownedRetain
  (* INTERIOR_POINTER_PROJECTION *)
  | RefElementAddr | RefTailAddr
  (* CONSTANT_OWNERSHIP_INST(Guaranteed, NonLifetimeEnding, _) *)
  | OpenExistentialValue | OpenExistentialBoxValue | OpenExistentialBox
  | HopToExecutor
  (* CONSTANT_OWNERSHIP_INST(Owned, LifetimeEnding, _) *)
  | AutoreleaseValue | DeallocBox | DeallocExistentialBox | DeallocRef
  | DestroyValue | EndLifetime | BeginCOWMutation | EndCOWMutation
  | UnownedRelease
  (* CONSTANT_OWNERSHIP_INST(None, NonLifetimeEnding, _) *)
  | AwaitAsyncContinuation | AbortApply | AddressToPointer | BeginAccess
  | BeginUnpairedAccess | BindMemory | CheckedCastAddrBranch | CondFail
  | CopyAddr | DeallocStack | DebugValueAddr | DeinitExistentialAddr
  | DestroyAddr | EndAccess | EndApply | EndUnpairedAccess
  | GetAsyncContinuationAddr | IndexAddr | IndexRawPointer
  | InitBlockStorageHeader | InitEnumDataAddr | InitExistentialAddr
  | InitExistentialMetatype | InjectEnumAddr | IsUnique | Load | LoadBorrow
  | MarkFunctionEscape | ObjCExistentialMetatypeToObject
  | ObjCMetatypeToObject | ObjCToThickMetatype | OpenExistentialAddr
  | OpenExistentialMetatype | PointerToAddress | PointerToThinFunction
  | ProjectBlockStorage | ProjectValueBuffer | RawPointerToRef
  | SelectEnumAddr | SelectValue | StructElementAddr | SwitchEnumAddr
  | SwitchValue | TailAddr | ThickToObjCMetatype | ThinFunctionToPointer
  | ThinToThickFunction | TupleElementAddr | UncheckedAddrCast
  | UncheckedRefCastAddr | UncheckedTakeEnumDataAddr
  | UnconditionalCheckedCastAddr | AllocValueBuffer | DeallocValueBuffer
  | LoadWeak | LoadUnowned | UnmanagedToRef
  (* CONSTANT_OR_NONE_OWNERSHIP_INST(Owned, LifetimeEnding, _) *)
  | CheckedCastValueBranch | UnconditionalCheckedCastValue
  | InitExistentialValue | DeinitExistentialValue
  (* ACCEPTS_ANY_OWNERSHIP_INST *)
  | BeginBorrow | CopyValue | DebugValue | FixLifetime | UncheckedBitwiseCast
  | WitnessMethod | ProjectBox | DynamicMethodBranch | UncheckedTrivialBitCast
  | ExistentialMetatype | ValueMetatype | UncheckedOwnershipConversion
  | ValueToBridgeObject | IsEscapingClosure | ClassMethod | ObjCMethod
  | ObjCSuperMethod | SuperMethod | BridgeObjectToWord | ClassifyBridgeObject
  | CopyBlock | RefToRawPointer | SetDeallocating | ProjectExistentialBox
  | UnmanagedRetainValue | UnmanagedReleaseValue | UnmanagedAutoreleaseValue
  | ConvertEscapeToNoEscape | RefToUnowned | UnownedToRef
  | StrongCopyUnownedValue | RefToUnmanaged | StrongCopyUnmanagedValue
  (* FORWARD_ANY_OWNERSHIP_INST *)
  | Tuple | Struct | Object | Enum | OpenExistentialRef | Upcast
  | UncheckedRefCast | ConvertFunction | RefToBridgeObject | BridgeObjectToRef
  | UnconditionalCheckedCast | UncheckedEnumData | InitExistentialRef
  | DifferentiableFunction | LinearFunction | UncheckedValueCast
  (* FORWARD_CONSTANT_OR_NONE_OWNERSHIP_INST *)
  | TupleExtract | StructExtract | DifferentiableFunctionExtract
  | LinearFunctionExtract | MarkUninitialized
  (* instructions with visitors of their own *)
  | DestructureStruct (ownershipKind : ValueOwnershipKind)
  | DestructureTuple (ownershipKind : ValueOwnershipKind)
  | DeallocPartialRef | SelectEnum | AllocRef | AllocRefDynamic
  | Branch (destArgKinds : list ValueOwnershipKind)
  | CondBranch | SwitchEnum | CheckedCastBranch
  | Return (directResultKinds : list ValueOwnershipKind)
  | EndBorrow | Throw | StoreWeak | StoreUnowned | StoreBorrow
  | Apply (site : ApplySiteInfo)
  | TryApply (site : ApplySiteInfo)
  | BeginApply (site : ApplySiteInfo)
  | PartialApply (isOnStack : bool)
  | Yield (yieldConventions : list ParameterConvention)
  | Assign | AssignByWrapper | Store | CopyBlockWithoutEscaping
  | MarkDependence (ownershipKind : ValueOwnershipKind)
  | KeyPath
  | Builtin (kind : BuiltinValueKind.t).
End SILInstructionKind.

(** A [SILInstruction]: its kind and its operands, in operand-number order.
    For [Branch] the kinds are those of the destination block's arguments;
    for [Return] those of the enclosing function's direct results; for
    [Yield] the conventions of the function's yields; for [DestructureStruct],
    [DestructureTuple] and [MarkDependence] the instruction's own forwarding
    ownership kind. *)
Record SILInstruction : Type := mkInst {
  inst_kind : SILInstructionKind.t;
  inst_operands : list Operand
}.

(** What classifying an operand does: return a map, or stop the process.
    [ReportFatalError i msg] is [llvm::errs() << "Unhandled inst: " << *i]
    followed by [llvm::report_fatal_error(msg)]; [LLVMUnreachable msg] is
    [llvm_unreachable(msg)]; [AssertionFailure msg] is an assertion of a
    collaborator (an index past the end of an operand, argument, parameter or
    yield list). *)
Inductive ClassifyResult : Type :=
| Returns (m : OperandOwnershipKindMap)
| ReportFatalError (unhandled : SILInstruction) (message : string)
| LLVMUnreachable (message : string)
| AssertionFailure (message : string).

(* ------------------------------------------------------------------------- *)
(** ** OperandOwnershipKindBuiltinClassifier *)

Definition shouldNeverVisitBuiltinMessage : string :=
  "Builtin should never be visited! E.x.: It may not have arguments".

Definition loweredBuiltinMessage : string :=
  "Builtin should have been lowered to SIL instruction?!".

Definition classifyBuiltin (b : BuiltinValueKind.t) : ClassifyResult :=
  match b with
  (* visitLLVMIntrinsic *)
  | BuiltinValueKind.LLVMIntrinsic _ => Returns allLive
  (* ANY_OWNERSHIP_BUILTIN *)
  | BuiltinValueKind.ErrorInMain | BuiltinValueKind.UnexpectedError
  | BuiltinValueKind.WillThrow | BuiltinValueKind.AShr
  | BuiltinValueKind.GenericAShr | BuiltinValueKind.Add
  | BuiltinValueKind.GenericAdd | BuiltinValueKind.Alignof
  | BuiltinValueKind.AllocRaw | BuiltinValueKind.And
  | BuiltinValueKind.GenericAnd | BuiltinValueKind.AssertConf
  | BuiltinValueKind.AssignCopyArrayNoAlias
  | BuiltinValueKind.AssignCopyArrayFrontToBack
  | BuiltinValueKind.AssignCopyArrayBackToFront
  | BuiltinValueKind.AssignTakeArray | BuiltinValueKind.AssumeNonNegative
  | BuiltinValueKind.AssumeTrue | BuiltinValueKind.AtomicLoad
  | BuiltinValueKind.AtomicRMW | BuiltinValueKind.AtomicStore
  | BuiltinValueKind.BitCast | BuiltinValueKind.CanBeObjCClass
  | BuiltinValueKind.CondFailMessage | BuiltinValueKind.CmpXChg
  | BuiltinValueKind.CondUnreachable | BuiltinValueKind.CopyArray
  | BuiltinValueKind.DeallocRaw | BuiltinValueKind.DestroyArray
  | BuiltinValueKind.ExactSDiv | BuiltinValueKind.GenericExactSDiv
  | BuiltinValueKind.ExactUDiv | BuiltinValueKind.GenericExactUDiv
  | BuiltinValueKind.ExtractElement | BuiltinValueKind.FAdd
  | BuiltinValueKind.GenericFAdd | BuiltinValueKind.FCMP_OEQ
  | BuiltinValueKind.FCMP_OGE | BuiltinValueKind.FCMP_OGT
  | BuiltinValueKind.FCMP_OLE | BuiltinValueKind.FCMP_OLT
  | BuiltinValueKind.FCMP_ONE | BuiltinValueKind.FCMP_ORD
  | BuiltinValueKind.FCMP_UEQ | BuiltinValueKind.FCMP_UGE
  | BuiltinValueKind.FCMP_UGT | BuiltinValueKind.FCMP_ULE
  | BuiltinValueKind.FCMP_ULT | BuiltinValueKind.FCMP_UNE
  | BuiltinValueKind.FCMP_UNO | BuiltinValueKind.FDiv
  | BuiltinValueKind.GenericFDiv | BuiltinValueKind.FMul
  | BuiltinValueKind.GenericFMul | BuiltinValueKind.FNeg
  | BuiltinValueKind.FPExt | BuiltinValueKind.FPToSI | BuiltinValueKind.FPToUI
  | BuiltinValueKind.FPTrunc | BuiltinValueKind.FRem
  | BuiltinValueKind.GenericFRem | BuiltinValueKind.FSub
  | BuiltinValueKind.GenericFSub | BuiltinValueKind.Fence
  | BuiltinValueKind.GetObjCTypeEncoding | BuiltinValueKind.ICMP_EQ
  | BuiltinValueKind.ICMP_NE | BuiltinValueKind.ICMP_SGE
  | BuiltinValueKind.ICMP_SGT | BuiltinValueKind.ICMP_SLE
  | BuiltinValueKind.ICMP_SLT | BuiltinValueKind.ICMP_UGE
  | BuiltinValueKind.ICMP_UGT | BuiltinValueKind.ICMP_ULE
  | BuiltinValueKind.ICMP_ULT | BuiltinValueKind.InsertElement
  | BuiltinValueKind.IntToFPWithOverflow | BuiltinValueKind.IntToPtr
  | BuiltinValueKind.IsOptionalType | BuiltinValueKind.IsPOD
  | BuiltinValueKind.IsConcrete | BuiltinValueKind.IsBitwiseTakable
  | BuiltinValueKind.IsSameMetatype | BuiltinValueKind.LShr
  | BuiltinValueKind.GenericLShr | BuiltinValueKind.Mul
  | BuiltinValueKind.GenericMul | BuiltinValueKind.OnFastPath
  | BuiltinValueKind.Once | BuiltinValueKind.OnceWithContext
  | BuiltinValueKind.Or | BuiltinValueKind.GenericOr
  | BuiltinValueKind.PtrToInt | BuiltinValueKind.SAddOver
  | BuiltinValueKind.SDiv | BuiltinValueKind.GenericSDiv
  | BuiltinValueKind.SExt | BuiltinValueKind.SExtOrBitCast
  | BuiltinValueKind.SIToFP | BuiltinValueKind.SMulOver
  | BuiltinValueKind.SRem | BuiltinValueKind.GenericSRem
  | BuiltinValueKind.SSubOver | BuiltinValueKind.SToSCheckedTrunc
  | BuiltinValueKind.SToUCheckedTrunc | BuiltinValueKind.Expect
  | BuiltinValueKind.Shl | BuiltinValueKind.GenericShl
  | BuiltinValueKind.Sizeof | BuiltinValueKind.StaticReport
  | BuiltinValueKind.Strideof | BuiltinValueKind.StringObjectOr
  | BuiltinValueKind.Sub | BuiltinValueKind.GenericSub
  | BuiltinValueKind.TakeArrayNoAlias | BuiltinValueKind.TakeArrayBackToFront
  | BuiltinValueKind.TakeArrayFrontToBack | BuiltinValueKind.Trunc
  | BuiltinValueKind.TruncOrBitCast | BuiltinValueKind.TSanInoutAccess
  | BuiltinValueKind.UAddOver | BuiltinValueKind.UDiv
  | BuiltinValueKind.GenericUDiv | BuiltinValueKind.UIToFP
  | BuiltinValueKind.UMulOver | BuiltinValueKind.URem
  | BuiltinValueKind.GenericURem | BuiltinValueKind.USubOver
  | BuiltinValueKind.UToSCheckedTrunc | BuiltinValueKind.UToUCheckedTrunc
  | BuiltinValueKind.Unreachable | BuiltinValueKind.UnsafeGuaranteedEnd
  | BuiltinValueKind.Xor | BuiltinValueKind.GenericXor | BuiltinValueKind.ZExt
  | BuiltinValueKind.ZExtOrBitCast | BuiltinValueKind.ZeroInitializer
  | BuiltinValueKind.Swift3ImplicitObjCEntrypoint
  | BuiltinValueKind.PoundAssert | BuiltinValueKind.GlobalStringTablePointer
  | BuiltinValueKind.TypePtrAuthDiscriminator
  | BuiltinValueKind.IntInstrprofIncrement =>
      Returns allLive
  (* CONSTANT_OWNERSHIP_BUILTIN *)
  | BuiltinValueKind.COWBufferForReading | BuiltinValueKind.UnsafeGuaranteed =>
      Returns (compatibilityMap Owned LifetimeEnding)
  | BuiltinValueKind.CancelAsyncTask =>
      Returns (compatibilityMap Guaranteed NonLifetimeEnding)
  (* SHOULD_NEVER_VISIT_BUILTIN *)
  | BuiltinValueKind.GetCurrentAsyncTask => LLVMUnreachable shouldNeverVisitBuiltinMessage
  (* BUILTIN_SIL_OPERATION *)
  | BuiltinValueKind.BuiltinSILOperation _ => LLVMUnreachable loweredBuiltinMessage
  end.

(* ------------------------------------------------------------------------- *)
(** ** OperandOwnershipKindClassifier *)

(** The kinds [visitForwardingInst] merges: those of the operands that are not
    type dependent ([makeOptionalTransformRange] drops the others). *)
Definition forwardedKinds (ops : list Operand) : list ValueOwnershipKind :=
  map (fun o => value_kind (operand_value o))
      (filter (fun o => negb (operand_type_dependent o)) ops).

Definition visitForwardingInst (ops : list Operand) : OperandOwnershipKindMap :=
  match merge (forwardedKinds ops) with
  | Datatypes.None => emptyMap
  | Some kind =>
      if kind_eqb kind None then allLive
      else compatibilityMap kind (getForwardingLifetimeConstraint kind)
  end.

(** [visitCallee]. *)
Definition visitCallee (site : ApplySiteInfo) : ClassifyResult :=
  match callee_convention site with
  | Indirect_In | Indirect_In_Constant =>
      Returns (compatibilityMap Owned LifetimeEnding)
  | Indirect_In_Guaranteed =>
      Returns (compatibilityMap Guaranteed NonLifetimeEnding)
  | Indirect_Inout | Indirect_InoutAliasable =>
      LLVMUnreachable "Illegal convention for callee"
  | Direct_Unowned => Returns allLive
  | Direct_Owned => Returns (compatibilityMap Owned LifetimeEnding)
  | Direct_Guaranteed =>
      if callee_is_noescape site then Returns allLive
      else Returns (compatibilityMapList [(Guaranteed, NonLifetimeEnding);
                                          (Owned, NonLifetimeEnding)])
  end.

(** [visitApplyParameter]: owned values may always be passed. *)
Definition visitApplyParameter (kind : ValueOwnershipKind)
  (requirement : UseLifetimeConstraint) : OperandOwnershipKindMap :=
  if negb (kind_eqb kind Owned) then
    compatibilityMapList [(kind, requirement); (Owned, NonLifetimeEnding)]
  else compatibilityMap kind requirement.

(** [visitFullApply] for operand number [opIdx] holding [op]. The callee is
    operand 0, the indirect results are operands 1 to
    [num_indirect_results]; [getCalleeArgIndex] is [opIdx - 1] and the
    parameter of SIL argument [argIndex] is the one at
    [argIndex - num_indirect_results]. *)
Definition visitFullApply (site : ApplySiteInfo) (opIdx : nat) (op : Operand)
  : ClassifyResult :=
  if Nat.eqb opIdx 0 then visitCallee site
  else if Nat.leb opIdx (num_indirect_results site) then Returns allLive
  else if operand_type_dependent op then Returns emptyMap
  else
    let argIndex := opIdx - 1 in
    match nth_error (param_conventions site) (argIndex - num_indirect_results site) with
    | Datatypes.None => AssertionFailure "getParamInfoForSILArg: index out of range"
    | Some Direct_Owned => Returns (visitApplyParameter Owned LifetimeEnding)
    | Some Direct_Unowned => Returns allLive
    | Some Indirect_In =>
        if use_lowered_addresses site then Returns allLive
        else Returns (visitApplyParameter Owned LifetimeEnding)
    | Some Indirect_In_Guaranteed =>
        if use_lowered_addresses site then Returns allLive
        else Returns (visitApplyParameter Guaranteed NonLifetimeEnding)
    | Some Indirect_In_Constant | Some Indirect_Inout
    | Some Indirect_InoutAliasable => Returns allLive
    | Some Direct_Guaranteed => Returns (visitApplyParameter Guaranteed NonLifetimeEnding)
    end.

(** [visitYieldInst] for operand number [opIdx] holding value [v]. *)
Definition visitYield (yields : list ParameterConvention) (opIdx : nat) (v : SILValue)
  : ClassifyResult :=
  (* isAddressOrTrivialType() *)
  if value_is_address v || kind_eqb (value_kind v) None then Returns allLive
  else
    match nth_error yields opIdx with
    | Datatypes.None => AssertionFailure "getYields: index out of range"
    | Some Indirect_In | Some Direct_Owned =>
        Returns (visitApplyParameter Owned LifetimeEnding)
    | Some Indirect_In_Constant | Some Direct_Unowned => Returns allLive
    | Some Indirect_In_Guaranteed | Some Direct_Guaranteed =>
        Returns (visitApplyParameter Guaranteed NonLifetimeEnding)
    | Some Indirect_Inout | Some Indirect_InoutAliasable =>
        LLVMUnreachable "Unexpected non-trivial parameter convention."
    end.

(** [visitBranchInst]: [bi->getDestBB()->getArgument(getOperandIndex())]. *)
Definition visitBranch (destArgKinds : list ValueOwnershipKind) (opIdx : nat)
  : ClassifyResult :=
  match nth_error destArgKinds opIdx with
  | Datatypes.None => AssertionFailure "getArgument: index out of range"
  | Some destBlockArgOwnershipKind =>
      if kind_eqb destBlockArgOwnershipKind Guaranteed then
        Returns (compatibilityMap destBlockArgOwnershipKind LifetimeEnding)
      else
        Returns (compatibilityMap destBlockArgOwnershipKind
                   (getForwardingLifetimeConstraint destBlockArgOwnershipKind))
  end.

(** [visitReturnInst]; [isTrivial] is whether the returned operand's type is
    trivial in the enclosing function. *)
Definition visitReturn (directResultKinds : list ValueOwnershipKind) (isTrivial : bool)
  : OperandOwnershipKindMap :=
  if isTrivial then allLive
  else match directResultKinds with
       | [] => emptyMap
       | _ =>
           match merge directResultKinds with
           | Datatypes.None => emptyMap
           | Some base => compatibilityMap base (getForwardingLifetimeConstraint base)
           end
       end.

(** Whether [v] is the value of operand [k] of [i] ([getValue() == i->getSrc()]
    and the like). *)
Definition isOperandValue (i : SILInstruction) (k : nat) (v : SILValue) : bool :=
  match nth_error (inst_operands i) k with
  | Some o => value_eqb v (operand_value o)
  | Datatypes.None => false
  end.

Definition shouldNeverVisitMessage : string :=
  "Visited instruction that should never be visited?!".

Import SILInstructionKind.

(** The visitor: classify operand number [opIdx], holding [op], of [i]. *)
Definition visit (i : SILInstruction) (opIdx : nat) (op : Operand) : ClassifyResult :=
  let v := operand_value op in
  match inst_kind i with
  (* SHOULD_NEVER_VISIT_INST *)
  | AllocBox | AllocExistentialBox | AllocGlobal | AllocStack
  | DifferentiabilityWitnessFunction | FloatLiteral | FunctionRef
  | DynamicFunctionRef | PreviousDynamicFunctionRef | GlobalAddr | GlobalValue
  | BaseAddrForOffset | IntegerLiteral | Metatype | ObjCProtocol | RetainValue
  | RetainValueAddr | StringLiteral | StrongRetain | Unreachable | Unwind
  | ReleaseValue | ReleaseValueAddr | StrongRelease | GetAsyncContinuation
  | StrongRetainUnowned | UnownedRetain =>
      ReportFatalError i shouldNeverVisitMessage
  (* INTERIOR_POINTER_PROJECTION *)
  | RefElementAddr | RefTailAddr =>
      Returns (compatibilityMap Guaranteed NonLifetimeEnding)
  (* CONSTANT_OWNERSHIP_INST *)
  | OpenExistentialValue | OpenExistentialBoxValue | OpenExistentialBox
  | HopToExecutor =>
      Returns (compatibilityMap Guaranteed NonLifetimeEnding)
  | AutoreleaseValue | DeallocBox | DeallocExistentialBox | DeallocRef
  | DestroyValue | EndLifetime | BeginCOWMutation | EndCOWMutation
  | UnownedRelease =>
      Returns (compatibilityMap Owned LifetimeEnding)
  | AwaitAsyncContinuation | AbortApply | AddressToPointer | BeginAccess
  | BeginUnpairedAccess | BindMemory | CheckedCastAddrBranch | CondFail
  | CopyAddr | DeallocStack | DebugValueAddr | DeinitExistentialAddr
  | DestroyAddr | EndAccess | EndApply | EndUnpairedAccess
  | GetAsyncContinuationAddr | IndexAddr | IndexRawPointer
  | InitBlockStorageHeader | InitEnumDataAddr | InitExistentialAddr
  | InitExistentialMetatype | InjectEnumAddr | IsUnique | Load | LoadBorrow
  | MarkFunctionEscape | ObjCExistentialMetatypeToObject
  | ObjCMetatypeToObject | ObjCToThickMetatype | OpenExistentialAddr
  | OpenExistentialMetatype | PointerToAddress | PointerToThinFunction
  | ProjectBlockStorage | ProjectValueBuffer | RawPointerToRef
  | SelectEnumAddr | SelectValue | StructElementAddr | SwitchEnumAddr
  | SwitchValue | TailAddr | ThickToObjCMetatype | ThinFunctionToPointer
  | ThinToThickFunction | TupleElementAddr | UncheckedAddrCast
  | UncheckedRefCastAddr | UncheckedTakeEnumDataAddr
  | UnconditionalCheckedCastAddr | AllocValueBuffer | DeallocValueBuffer
  | LoadWeak | LoadUnowned | UnmanagedToRef =>
      Returns (compatibilityMap None NonLifetimeEnding)
  (* CONSTANT_OR_NONE_OWNERSHIP_INST *)
  | CheckedCastValueBranch | UnconditionalCheckedCastValue
  | InitExistentialValue | DeinitExistentialValue =>
      Returns (compatibilityMap Owned LifetimeEnding)
  (* ACCEPTS_ANY_OWNERSHIP_INST *)
  | BeginBorrow | CopyValue | DebugValue | FixLifetime | UncheckedBitwiseCast
  | WitnessMethod | ProjectBox | DynamicMethodBranch | UncheckedTrivialBitCast
  | ExistentialMetatype | ValueMetatype | UncheckedOwnershipConversion
  | ValueToBridgeObject | IsEscapingClosure | ClassMethod | ObjCMethod
  | ObjCSuperMethod | SuperMethod | BridgeObjectToWord | ClassifyBridgeObject
  | CopyBlock | RefToRawPointer | SetDeallocating | ProjectExistentialBox
  | UnmanagedRetainValue | UnmanagedReleaseValue | UnmanagedAutoreleaseValue
  | ConvertEscapeToNoEscape | RefToUnowned | UnownedToRef
  | StrongCopyUnownedValue | RefToUnmanaged | StrongCopyUnmanagedValue =>
      Returns allLive
  (* FORWARD_ANY_OWNERSHIP_INST *)
  | Tuple | Struct | Object | Enum | OpenExistentialRef | Upcast
  | UncheckedRefCast | ConvertFunction | RefToBridgeObject | BridgeObjectToRef
  | UnconditionalCheckedCast | UncheckedEnumData | InitExistentialRef
  | DifferentiableFunction | LinearFunction | UncheckedValueCast =>
      Returns (visitForwardingInst (inst_operands i))
  (* FORWARD_CONSTANT_OR_NONE_OWNERSHIP_INST *)
  | TupleExtract | StructExtract | DifferentiableFunctionExtract
  | LinearFunctionExtract =>
      Returns (compatibilityMap Guaranteed NonLifetimeEnding)
  | MarkUninitialized =>
      Returns (compatibilityMap Owned LifetimeEnding)
  | DestructureStruct kind | DestructureTuple kind =>
      Returns (compatibilityMap kind (getForwardingLifetimeConstraint kind))
  | DeallocPartialRef =>
      (* the instance is operand 0 *)
      if isOperandValue i 0 v then Returns (compatibilityMap Owned LifetimeEnding)
      else Returns allLive
  | SelectEnum =>
      (* the enum operand is operand 0 *)
      if isOperandValue i 0 v then Returns allLive
      else Returns (visitForwardingInst (tl (inst_operands i)))
  | AllocRef | AllocRefDynamic => Returns allLive
  | Branch destArgKinds => visitBranch destArgKinds opIdx
  | CondBranch => Returns allLive
  | SwitchEnum | CheckedCastBranch =>
      Returns (compatibilityMap (value_kind v)
                 (getForwardingLifetimeConstraint (value_kind v)))
  | Return directResultKinds =>
      (* ri->getOperand() is the returned operand, the only one *)
      Returns (visitReturn directResultKinds (value_is_trivial v))
  | EndBorrow => Returns (compatibilityMap Guaranteed LifetimeEnding)
  | Throw => Returns (compatibilityMap Owned LifetimeEnding)
  | StoreWeak | StoreUnowned => Returns allLive
  | StoreBorrow =>
      (* the source is operand 0 *)
      if isOperandValue i 0 v then Returns (compatibilityMap Guaranteed NonLifetimeEnding)
      else Returns allLive
  | Apply site | TryApply site | BeginApply site => visitFullApply site opIdx op
  | PartialApply isOnStack =>
      if isOnStack then Returns allLive
      else Returns (compatibilityMap Owned LifetimeEnding)
  | Yield yieldConventions => visitYield yieldConventions opIdx v
  | Assign | AssignByWrapper | Store =>
      (* the source is operand 0 *)
      if negb (isOperandValue i 0 v) then Returns allLive
      else Returns (compatibilityMap Owned LifetimeEnding)
  | CopyBlockWithoutEscaping =>
      (* the closure is operand 1 *)
      if isOperandValue i 1 v then Returns (compatibilityMap Owned LifetimeEnding)
      else Returns allLive
  | MarkDependence kind =>
      (* the value is operand 0, the base operand 1 *)
      if isOperandValue i 0 v then
        (if kind_eqb kind None then Returns allLive
         else Returns (compatibilityMap kind (getForwardingLifetimeConstraint kind)))
      else Returns allLive
  | KeyPath => Returns (compatibilityMap Owned LifetimeEnding)
  | Builtin b => classifyBuiltin b
  end.

(** [Operand::getOwnershipKindMap]: classify operand number [opIdx] of [i]. *)
Definition classify (i : SILInstruction) (opIdx : nat) : ClassifyResult :=
  match nth_error (inst_operands i) opIdx with
  | Datatypes.None => AssertionFailure "getOperand: index out of range"
  | Some op => visit i opIdx op
  end.

(* ------------------------------------------------------------------------- *)
(** ** Instruction families *)

(** The instructions declared with [FORWARD_ANY_OWNERSHIP_INST]. *)
Definition isForwardAnyInst (k : SILInstructionKind.t) : bool :=
  match k with
  | Tuple | Struct | Object | Enum | OpenExistentialRef | Upcast
  | UncheckedRefCast | ConvertFunction | RefToBridgeObject | BridgeObjectToRef
  | UnconditionalCheckedCast | UncheckedEnumData | InitExistentialRef
  | DifferentiableFunction | LinearFunction | UncheckedValueCast => true
  | _ => false
  end.

(** The full apply sites and the apply-site information they carry. *)
Definition fullApplySite (k : SILInstructionKind.t) : option ApplySiteInfo :=
  match k with
  | Apply site | TryApply site | BeginApply site => Some site
  | _ => Datatypes.None
  end.

(** The instructions declared with [SHOULD_NEVER_VISIT_INST]. *)
Definition isNeverVisitInst (k : SILInstructionKind.t) : bool :=
  match k with
  | AllocBox | AllocExistentialBox | AllocGlobal | AllocStack
  | DifferentiabilityWitnessFunction | FloatLiteral | FunctionRef
  | DynamicFunctionRef | PreviousDynamicFunctionRef | GlobalAddr | GlobalValue
  | BaseAddrForOffset | IntegerLiteral | Metatype | ObjCProtocol | RetainValue
  | RetainValueAddr | StringLiteral | StrongRetain | Unreachable | Unwind
  | ReleaseValue | ReleaseValueAddr | StrongRelease | GetAsyncContinuation
  | StrongRetainUnowned | UnownedRetain => true
  | _ => false
  end.

(** Owned is always lendable: a map that accepts a non-Owned kind without
    ending its lifetime also accepts Owned without ending its lifetime. *)
Definition ownedIsLendable (m : OperandOwnershipKindMap) : bool :=
  let nle c := match c with Some NonLifetimeEnding => true | _ => false end in
  implb (nle (map_none m) || nle (map_guaranteed m)) (nle (map_owned m)).

(* ------------------------------------------------------------------------- *)
(** ** Small instructions used by the examples *)

Definition val (id : nat) (k : ValueOwnershipKind) : SILValue :=
  mkValue id k false (kind_eqb k None).

Definition use (v : SILValue) : Operand := mkOperand v false.

Definition tupleOf (ks : list ValueOwnershipKind) : SILInstruction :=
  mkInst Tuple (map (fun p => use (val (fst p) (snd p)))
                    (combine (seq 1 (length ks)) ks)).

Example tuple_owned_none :
  classify (tupleOf [Owned; None]) 0 = Returns (compatibilityMap Owned LifetimeEnding)
  /\ classify (tupleOf [Owned; None]) 1 = Returns (compatibilityMap Owned LifetimeEnding).
Proof. split; reflexivity. Qed.

Example tuple_owned_guaranteed :
  classify (tupleOf [Owned; Guaranteed]) 0 = Returns emptyMap
  /\ classify (tupleOf [Owned; Guaranteed]) 1 = Returns emptyMap.
Proof. split; reflexivity. Qed.

Example tuple_trivial : classify (tupleOf [None; None]) 1 = Returns allLive.
Proof. reflexivity. Qed.

(* ------------------------------------------------------------------------- *)
(** ** Merge lemmas *)

Lemma merge_fold_failed : forall ks,
  fold_left (fun acc k => match acc with
                          | Some a => merge2 a k
                          | Datatypes.None => Datatypes.None
                          end) ks Datatypes.None = Datatypes.None.
Proof. induction ks; simpl; auto. Qed.

Lemma merge_fold_fails_iff : forall ks a,
  fold_left (fun acc k => match acc with
                          | Some a => merge2 a k
                          | Datatypes.None => Datatypes.None
                          end) ks (Some a) = Datatypes.None
  <-> In Owned (a :: ks) /\ In Guaranteed (a :: ks).
Proof.
  induction ks as [|k ks IH]; intros a; simpl.
  - split; [discriminate|]. intros [[H|[]] [H'|[]]]; congruence.
  - destruct a, k; simpl;
      try (rewrite merge_fold_failed; simpl; intuition congruence);
      rewrite IH; simpl; intuition congruence.
Qed.

(** The merge fails exactly when an Owned and a Guaranteed kind meet. *)
Lemma merge_fails_iff : forall ks,
  merge ks = Datatypes.None <-> In Owned ks /\ In Guaranteed ks.
Proof.
  intros ks. unfold merge. rewrite merge_fold_fails_iff. simpl.
  intuition congruence.
Qed.

Lemma nth_error_lt : forall {A} (l : list A) n,
  n < length l -> exists x, nth_error l n = Some x.
Proof.
  intros A l n H. destruct (nth_error l n) eqn:E; eauto.
  apply nth_error_None in E. lia.
Qed.

Lemma classify_forwarding : forall i n,
  isForwardAnyInst (inst_kind i) = true -> n < length (inst_operands i) ->
  classify i n = Returns (visitForwardingInst (inst_operands i)).
Proof.
  intros i n Hf Hn. destruct (nth_error_lt _ _ Hn) as [op Hop].
  unfold classify. rewrite Hop. unfold visit.
  destruct (inst_kind i); try discriminate Hf; reflexivity.
Qed.

(* ------------------------------------------------------------------------- *)
(** ** Forwarding instructions *)

(** C1: for every operand of a [FORWARD_ANY_OWNERSHIP_INST] instruction whose
    non-type-dependent operands contribute both an Owned and a Guaranteed
    kind (so the merge fails), classification returns the empty map. *)
Theorem forwarding_merge_failure_empty_map : forall i n,
  isForwardAnyInst (inst_kind i) = true ->
  n < length (inst_operands i) ->
  In Owned (forwardedKinds (inst_operands i)) ->
  In Guaranteed (forwardedKinds (inst_operands i)) ->
  classify i n = Returns emptyMap.
Proof.
  intros i n Hf Hn Ho Hg. rewrite (classify_forwarding i n Hf Hn).
  unfold visitForwardingInst.
  assert (Hm : merge (forwardedKinds (inst_operands i)) = Datatypes.None)
    by (apply merge_fails_iff; auto).
  rewrite Hm. reflexivity.
Qed.

Lemma forwarding_merge_failure_empty_map_witness :
  classify (tupleOf [Owned; Guaranteed]) 1 = Returns emptyMap.
Proof.
  apply (forwarding_merge_failure_empty_map (tupleOf [Owned; Guaranteed]) 1);
    [reflexivity | simpl; lia | simpl; auto | simpl; auto].
Defined.

(** C2: for every operand of a [FORWARD_ANY_OWNERSHIP_INST] instruction whose
    forwarded kinds merge to [k]: all-live when [k] is None, {Owned:
    LifetimeEnding} when [k] is Owned, {Guaranteed: NonLifetimeEnding} when
    [k] is Guaranteed; the same map for every operand. *)
Theorem forwarding_merge_success_map : forall i n k,
  isForwardAnyInst (inst_kind i) = true ->
  n < length (inst_operands i) ->
  merge (forwardedKinds (inst_operands i)) = Some k ->
  (k = None -> classify i n = Returns allLive) /\
  (k = Owned -> classify i n = Returns (compatibilityMap Owned LifetimeEnding)) /\
  (k = Guaranteed ->
     classify i n = Returns (compatibilityMap Guaranteed NonLifetimeEnding)).
Proof.
  intros i n k Hf Hn Hm. rewrite (classify_forwarding i n Hf Hn).
  unfold visitForwardingInst. rewrite Hm.
  repeat split; intros ->; reflexivity.
Qed.

Lemma forwarding_merge_success_map_witness :
  classify (tupleOf [Owned; None]) 0 = Returns (compatibilityMap Owned LifetimeEnding)
  /\ classify (tupleOf [Owned; None]) 1 = Returns (compatibilityMap Owned LifetimeEnding).
Proof.
  split.
  - apply (forwarding_merge_success_map (tupleOf [Owned; None]) 0 Owned);
      [reflexivity | simpl; lia | reflexivity | reflexivity].
  - apply (forwarding_merge_success_map (tupleOf [Owned; None]) 1 Owned);
      [reflexivity | simpl; lia | reflexivity | reflexivity].
Defined.

(* ------------------------------------------------------------------------- *)
(** ** Call sites *)

Lemma classify_full_apply : forall i n op site,
  fullApplySite (inst_kind i) = Some site ->
  nth_error (inst_operands i) n = Some op ->
  classify i n = visitFullApply site n op.
Proof.
  intros i n op site Hs Hop. unfold classify. rewrite Hop. unfold visit.
  destruct (inst_kind i); try discriminate Hs; injection Hs as ->; reflexivity.
Qed.

(** An [apply] of a callee of convention [callee] to one argument per
    parameter convention, with no indirect results. *)
Definition sampleApply (callee : ParameterConvention) (noescape : bool)
  (params : list ParameterConvention) (lowered : bool) (argKind : ValueOwnershipKind)
  : SILInstruction :=
  mkInst (Apply (mkApplySite callee noescape 0 params lowered))
         (use (val 1 Guaranteed) :: map (fun n => use (val (2 + n) argKind))
                                         (seq 0 (length params))).

Example apply_in_guaranteed_argument :
  classify (sampleApply Direct_Guaranteed false [Indirect_In_Guaranteed] false Owned) 1
  = Returns (compatibilityMapList [(Guaranteed, NonLifetimeEnding);
                                   (Owned, NonLifetimeEnding)]).
Proof. reflexivity. Qed.

Example apply_in_guaranteed_lowered :
  classify (sampleApply Direct_Guaranteed false [Indirect_In_Guaranteed] true Owned) 1
  = Returns allLive.
Proof. reflexivity. Qed.

(** C3: an argument operand of a full apply site (not the callee, not an
    indirect result, not type dependent) whose parameter convention is
    Direct_Guaranteed, or Indirect_In_Guaranteed without lowered addresses,
    gets exactly {Guaranteed: NonLifetimeEnding, Owned: NonLifetimeEnding}:
    the map's None slot is empty and its Owned and Guaranteed slots are
    non-lifetime-ending. *)
Theorem apply_borrowed_argument_lends_owned : forall i n op site conv,
  fullApplySite (inst_kind i) = Some site ->
  nth_error (inst_operands i) n = Some op ->
  num_indirect_results site < n ->
  operand_type_dependent op = false ->
  nth_error (param_conventions site) (n - 1 - num_indirect_results site) = Some conv ->
  conv = Direct_Guaranteed \/
  (conv = Indirect_In_Guaranteed /\ use_lowered_addresses site = false) ->
  classify i n
  = Returns (mkMap Datatypes.None (Some NonLifetimeEnding) (Some NonLifetimeEnding)).
Proof.
  intros i n op site conv Hs Hop Hn Htd Hc Hconv.
  rewrite (classify_full_apply i n op site Hs Hop). unfold visitFullApply.
  destruct (Nat.eqb n 0) eqn:E0; [apply Nat.eqb_eq in E0; lia|].
  destruct (Nat.leb n (num_indirect_results site)) eqn:E1;
    [apply Nat.leb_le in E1; lia|].
  rewrite Htd. cbv zeta. rewrite Hc.
  destruct Hconv as [-> | [-> Hl]]; [|rewrite Hl]; reflexivity.
Qed.

Lemma apply_borrowed_argument_lends_owned_witness :
  classify (sampleApply Direct_Guaranteed false [Indirect_In_Guaranteed] false Owned) 1
  = Returns (mkMap Datatypes.None (Some NonLifetimeEnding) (Some NonLifetimeEnding)).
Proof.
  apply (apply_borrowed_argument_lends_owned _ 1 (use (val 2 Owned)) 
           (mkApplySite Direct_Guaranteed false 0 [Indirect_In_Guaranteed] false)
           Indirect_In_Guaranteed);
    [reflexivity | reflexivity | simpl; lia | reflexivity | reflexivity
    | right; split; reflexivity].
Defined.

(** C4: the callee operand of a full apply site whose callee convention is
    Direct_Guaranteed gets the all-live map when the substituted callee type
    is non-escaping, and exactly {Guaranteed: NonLifetimeEnding, Owned:
    NonLifetimeEnding} otherwise. *)
Theorem callee_direct_guaranteed_map : forall i site,
  fullApplySite (inst_kind i) = Some site ->
  0 < length (inst_operands i) ->
  callee_convention site = Direct_Guaranteed ->
  (callee_is_noescape site = true -> classify i 0 = Returns allLive) /\
  (callee_is_noescape site = false ->
     classify i 0
     = Returns (mkMap Datatypes.None (Some NonLifetimeEnding) (Some NonLifetimeEnding))).
Proof.
  intros i site Hs Hn Hc. destruct (nth_error_lt _ _ Hn) as [op Hop].
  rewrite (classify_full_apply i 0 op site Hs Hop).
  unfold visitFullApply, visitCallee. simpl. rewrite Hc.
  split; intros ->; reflexivity.
Qed.

Lemma callee_direct_guaranteed_map_witness :
  classify (sampleApply Direct_Guaranteed true [] false Owned) 0 = Returns allLive
  /\ classify (sampleApply Direct_Guaranteed false [] false Owned) 0
     = Returns (mkMap Datatypes.None (Some NonLifetimeEnding) (Some NonLifetimeEnding)).
Proof.
  split.
  - apply (callee_direct_guaranteed_map (sampleApply Direct_Guaranteed true [] false Owned)
             (mkApplySite Direct_Guaranteed true 0 [] false));
      [reflexivity | simpl; lia | reflexivity | reflexivity].
  - apply (callee_direct_guaranteed_map (sampleApply Direct_Guaranteed false [] false Owned)
             (mkApplySite Direct_Guaranteed false 0 [] false));
      [reflexivity | simpl; lia | reflexivity | reflexivity].
Defined.

(* ------------------------------------------------------------------------- *)
(** ** Branches *)

Definition sampleBranch (destArgKinds : list ValueOwnershipKind) : SILInstruction :=
  mkInst (Branch destArgKinds)
         (map (fun p => use (val (fst p) (snd p)))
              (combine (seq 1 (length destArgKinds)) destArgKinds)).

Definition sampleCondBranch : SILInstruction :=
  mkInst CondBranch [use (val 1 None); use (val 2 None)].

Example branch_guaranteed_consumes :
  classify (sampleBranch [Owned; Guaranteed; None]) 1
  = Returns (compatibilityMap Guaranteed LifetimeEnding).
Proof. reflexivity. Qed.

(** C5: an operand of [br] whose destination argument at the same position
    has kind Guaranteed gets {Guaranteed: LifetimeEnding}; any other kind
    [k] gets {k: its forwarding constraint}, i.e. {Owned: LifetimeEnding} or
    {None: NonLifetimeEnding}; every operand of [cond_br] gets all-live. *)
Theorem branch_operand_map :
  (forall i n destArgKinds k,
     inst_kind i = Branch destArgKinds ->
     n < length (inst_operands i) ->
     nth_error destArgKinds n = Some k ->
     (k = Guaranteed -> classify i n = Returns (compatibilityMap Guaranteed LifetimeEnding)) /\
     (k <> Guaranteed ->
        classify i n = Returns (compatibilityMap k (getForwardingLifetimeConstraint k))) /\
     (k = Owned -> classify i n = Returns (compatibilityMap Owned LifetimeEnding)) /\
     (k = None -> classify i n = Returns (compatibilityMap None NonLifetimeEnding))) /\
  (forall i n,
     inst_kind i = CondBranch ->
     n < length (inst_operands i) ->
     classify i n = Returns allLive).
Proof.
  split.
  - intros i n dk k Hk Hn Hd. destruct (nth_error_lt _ _ Hn) as [op Hop].
    unfold classify. rewrite Hop. unfold visit. rewrite Hk. unfold visitBranch.
    rewrite Hd.
    destruct k; repeat split; intros; try congruence; reflexivity.
  - intros i n Hk Hn. destruct (nth_error_lt _ _ Hn) as [op Hop].
    unfold classify. rewrite Hop. unfold visit. rewrite Hk. reflexivity.
Qed.

Lemma branch_operand_map_witness :
  classify (sampleBranch [Owned; Guaranteed; None]) 1
    = Returns (compatibilityMap Guaranteed LifetimeEnding)
  /\ classify (sampleBranch [Owned; Guaranteed; None]) 0
    = Returns (compatibilityMap Owned LifetimeEnding)
  /\ classify sampleCondBranch 1 = Returns allLive.
Proof.
  split; [|split].
  - apply (proj1 (proj1 branch_operand_map (sampleBranch [Owned; Guaranteed; None]) 1
                    [Owned; Guaranteed; None] Guaranteed
                    eq_refl ltac:(simpl; lia) eq_refl)).
    reflexivity.
  - apply (proj1 (proj2 (proj2 (proj1 branch_operand_map
             (sampleBranch [Owned; Guaranteed; None]) 0
             [Owned; Guaranteed; None] Owned eq_refl ltac:(simpl; lia) eq_refl)))).
    reflexivity.
  - apply (proj2 branch_operand_map sampleCondBranch 1); [reflexivity | simpl; lia].
Defined.

(* ------------------------------------------------------------------------- *)
(** ** Lending owned values *)

Lemma visitApplyParameter_lendable : forall k c,
  ownedIsLendable (visitApplyParameter k c) = true.
Proof. intros [] []; reflexivity. Qed.

Lemma visitFullApply_lendable : forall site n op m,
  visitFullApply site n op = Returns m ->
  n <> 0 \/ callee_convention site <> Indirect_In_Guaranteed ->
  ownedIsLendable m = true.
Proof.
  intros site n op m H Hc. unfold visitFullApply in H.
  destruct (Nat.eqb n 0) eqn:E0.
  - apply Nat.eqb_eq in E0. destruct Hc as [Hc|Hc]; [contradiction|].
    unfold visitCallee in H.
    destruct (callee_convention site); try congruence;
      try (destruct (callee_is_noescape site));
      injection H as <-; reflexivity.
  - destruct (Nat.leb n (num_indirect_results site));
      [injection H as <-; reflexivity|].
    destruct (operand_type_dependent op); [injection H as <-; reflexivity|].
    cbv zeta in H.
    destruct (nth_error (param_conventions site) (n - 1 - num_indirect_results site))
      as [[]|]; try discriminate H;
      try (destruct (use_lowered_addresses site));
      injection H as <-; auto using visitApplyParameter_lendable.
Qed.

Lemma visitYield_lendable : forall ys n v m,
  visitYield ys n v = Returns m -> ownedIsLendable m = true.
Proof.
  intros ys n v m H. unfold visitYield in H.
  destruct (value_is_address v || kind_eqb (value_kind v) None);
    [injection H as <-; reflexivity|].
  destruct (nth_error ys n) as [[]|]; try discriminate H;
    injection H as <-; auto using visitApplyParameter_lendable.
Qed.

Definition sampleRefElementAddr : SILInstruction :=
  mkInst RefElementAddr [use (val 1 Guaranteed)].

(** C6 (counterexample): the map of the operand of [ref_element_addr]
    accepts Guaranteed without ending its lifetime but does not accept
    Owned, so owned-is-always-lendable fails for some operand. *)
Lemma owned_lendable_fails_ref_element_addr :
  classify sampleRefElementAddr 0
    = Returns (compatibilityMap Guaranteed NonLifetimeEnding)
  /\ getLifetimeConstraint (compatibilityMap Guaranteed NonLifetimeEnding) Guaranteed
     = Some NonLifetimeEnding
  /\ getLifetimeConstraint (compatibilityMap Guaranteed NonLifetimeEnding) Owned
     = Datatypes.None
  /\ ~ (forall i n m, classify i n = Returns m -> ownedIsLendable m = true).
Proof.
  split; [reflexivity|]. split; [reflexivity|]. split; [reflexivity|].
  intros H. specialize (H sampleRefElementAddr 0 _ eq_refl). discriminate H.
Qed.

Definition sampleApplyCalleeInGuaranteed : SILInstruction :=
  sampleApply Indirect_In_Guaranteed false [] false Guaranteed.

(** The callee of convention Indirect_In_Guaranteed is not lendable either. *)
Remark callee_in_guaranteed_not_lendable :
  classify sampleApplyCalleeInGuaranteed 0
    = Returns (compatibilityMap Guaranteed NonLifetimeEnding)
  /\ ownedIsLendable (compatibilityMap Guaranteed NonLifetimeEnding) = false.
Proof. split; reflexivity. Qed.

(** C6 (amended): owned-is-always-lendable holds for every map returned for
    an operand of a full apply site other than a callee of convention
    Indirect_In_Guaranteed (arguments, indirect results, type-dependent
    operands, and callees of every other convention), and for every operand
    of a [yield]. *)
Theorem owned_lendable_call_sites_and_yields : forall i n m,
  classify i n = Returns m ->
  (exists site, fullApplySite (inst_kind i) = Some site /\
                (n <> 0 \/ callee_convention site <> Indirect_In_Guaranteed))
  \/ (exists ys, inst_kind i = Yield ys) ->
  ownedIsLendable m = true.
Proof.
  intros i n m H Hk.
  destruct (nth_error (inst_operands i) n) as [op|] eqn:Hop;
    [|unfold classify in H; rewrite Hop in H; discriminate H].
  destruct Hk as [[site [Hs Hc]] | [ys Hy]].
  - rewrite (classify_full_apply i n op site Hs Hop) in H.
    eapply visitFullApply_lendable; eauto.
  - unfold classify in H. rewrite Hop in H. unfold visit in H. rewrite Hy in H.
    eapply visitYield_lendable; eauto.
Qed.

Lemma owned_lendable_call_sites_and_yields_witness :
  ownedIsLendable (mkMap Datatypes.None (Some NonLifetimeEnding) (Some NonLifetimeEnding))
  = true.
Proof.
  apply (owned_lendable_call_sites_and_yields
           (sampleApply Direct_Guaranteed false [Direct_Guaranteed] false Owned) 1).
  - reflexivity.
  - left. exists (mkApplySite Direct_Guaranteed false 0 [Direct_Guaranteed] false).
    split; [reflexivity | left; lia].
Defined.

(* ------------------------------------------------------------------------- *)
(** ** Stores *)

Lemma value_eqb_refl : forall v, value_eqb v v = true.
Proof.
  intros [id k a t]. unfold value_eqb; simpl.
  rewrite Nat.eqb_refl, !eqb_reflx. destruct k; reflexivity.
Qed.

Lemma value_eqb_address_differs : forall v w,
  value_is_address v <> value_is_address w -> value_eqb v w = false.
Proof.
  intros [id k a t] [id' k' a' t'] H; unfold value_eqb; simpl in *.
  destruct a, a'; try congruence; rewrite !andb_false_r; reflexivity.
Qed.

Definition sampleStore : SILInstruction :=
  mkInst Store [use (val 1 Owned);
                mkOperand (mkValue 2 None true true) false].

Example store_sample :
  classify sampleStore 0 = Returns (compatibilityMap Owned LifetimeEnding)
  /\ classify sampleStore 1 = Returns allLive.
Proof. split; reflexivity. Qed.

(** C7: of a [store] (source operand 0, an object; destination operand 1, an
    address), the source gets exactly {Owned: LifetimeEnding} and the
    destination gets all-live. *)
Theorem store_operand_map : forall i src dest,
  inst_kind i = Store ->
  inst_operands i = [src; dest] ->
  value_is_address (operand_value src) = false ->
  value_is_address (operand_value dest) = true ->
  classify i 0 = Returns (compatibilityMap Owned LifetimeEnding) /\
  classify i 1 = Returns allLive.
Proof.
  intros i src dest Hk Hops Hs Hd.
  unfold classify, visit, isOperandValue. rewrite Hk, Hops. simpl.
  rewrite value_eqb_refl, value_eqb_address_differs by congruence.
  split; reflexivity.
Qed.

Lemma store_operand_map_witness :
  classify sampleStore 0 = Returns (compatibilityMap Owned LifetimeEnding) /\
  classify sampleStore 1 = Returns allLive.
Proof.
  apply (store_operand_map sampleStore (use (val 1 Owned))
           (mkOperand (mkValue 2 None true true) false));
    reflexivity.
Defined.

(* ------------------------------------------------------------------------- *)
(** ** Builtins *)

(** The arithmetic, comparison, bitcast/conversion and atomic builtins. *)
Definition arithmeticComparisonBitcastAtomicBuiltins : list BuiltinValueKind.t :=
  [ BuiltinValueKind.Add; BuiltinValueKind.GenericAdd; BuiltinValueKind.Sub;
    BuiltinValueKind.GenericSub; BuiltinValueKind.Mul; BuiltinValueKind.GenericMul;
    BuiltinValueKind.SDiv; BuiltinValueKind.GenericSDiv; BuiltinValueKind.UDiv;
    BuiltinValueKind.GenericUDiv; BuiltinValueKind.ExactSDiv;
    BuiltinValueKind.GenericExactSDiv; BuiltinValueKind.ExactUDiv;
    BuiltinValueKind.GenericExactUDiv; BuiltinValueKind.SRem;
    BuiltinValueKind.GenericSRem; BuiltinValueKind.URem; BuiltinValueKind.GenericURem;
    BuiltinValueKind.And; BuiltinValueKind.GenericAnd; BuiltinValueKind.Or;
    BuiltinValueKind.GenericOr; BuiltinValueKind.Xor; BuiltinValueKind.GenericXor;
    BuiltinValueKind.Shl; BuiltinValueKind.GenericShl; BuiltinValueKind.AShr;
    BuiltinValueKind.GenericAShr; BuiltinValueKind.LShr; BuiltinValueKind.GenericLShr;
    BuiltinValueKind.FAdd; BuiltinValueKind.GenericFAdd; BuiltinValueKind.FSub;
    BuiltinValueKind.GenericFSub; BuiltinValueKind.FMul; BuiltinValueKind.GenericFMul;
    BuiltinValueKind.FDiv; BuiltinValueKind.GenericFDiv; BuiltinValueKind.FRem;
    BuiltinValueKind.GenericFRem; BuiltinValueKind.FNeg;
    BuiltinValueKind.SAddOver; BuiltinValueKind.UAddOver; BuiltinValueKind.SSubOver;
    BuiltinValueKind.USubOver; BuiltinValueKind.SMulOver; BuiltinValueKind.UMulOver;
    BuiltinValueKind.ICMP_EQ; BuiltinValueKind.ICMP_NE; BuiltinValueKind.ICMP_SGE;
    BuiltinValueKind.ICMP_SGT; BuiltinValueKind.ICMP_SLE; BuiltinValueKind.ICMP_SLT;
    BuiltinValueKind.ICMP_UGE; BuiltinValueKind.ICMP_UGT; BuiltinValueKind.ICMP_ULE;
    BuiltinValueKind.ICMP_ULT; BuiltinValueKind.FCMP_OEQ; BuiltinValueKind.FCMP_OGE;
    BuiltinValueKind.FCMP_OGT; BuiltinValueKind.FCMP_OLE; BuiltinValueKind.FCMP_OLT;
    BuiltinValueKind.FCMP_ONE; BuiltinValueKind.FCMP_ORD; BuiltinValueKind.FCMP_UEQ;
    BuiltinValueKind.FCMP_UGE; BuiltinValueKind.FCMP_UGT; BuiltinValueKind.FCMP_ULE;
    BuiltinValueKind.FCMP_ULT; BuiltinValueKind.FCMP_UNE; BuiltinValueKind.FCMP_UNO;
    BuiltinValueKind.BitCast; BuiltinValueKind.Trunc; BuiltinValueKind.TruncOrBitCast;
    BuiltinValueKind.ZExt; BuiltinValueKind.ZExtOrBitCast; BuiltinValueKind.SExt;
    BuiltinValueKind.SExtOrBitCast; BuiltinValueKind.FPExt; BuiltinValueKind.FPTrunc;
    BuiltinValueKind.FPToSI; BuiltinValueKind.FPToUI; BuiltinValueKind.SIToFP;
    BuiltinValueKind.UIToFP; BuiltinValueKind.IntToPtr; BuiltinValueKind.PtrToInt;
    BuiltinValueKind.AtomicLoad; BuiltinValueKind.AtomicStore;
    BuiltinValueKind.AtomicRMW; BuiltinValueKind.CmpXChg; BuiltinValueKind.Fence ].

Definition sampleBuiltin (b : BuiltinValueKind.t) : SILInstruction :=
  mkInst (Builtin b) [use (val 1 Guaranteed)].

Example cancel_task_sample :
  classify (sampleBuiltin BuiltinValueKind.CancelAsyncTask) 0
  = Returns (compatibilityMap Guaranteed NonLifetimeEnding).
Proof. reflexivity. Qed.

(** C8: the builtin classifier gives every builtin one outcome: all-live,
    {Owned: LifetimeEnding}, {Guaranteed: NonLifetimeEnding}, or
    [llvm_unreachable]. Arithmetic, comparison, bitcast and atomic builtins
    and LLVM intrinsics are all-live; COWBufferForReading and UnsafeGuaranteed
    are {Owned: LifetimeEnding}; CancelAsyncTask is {Guaranteed:
    NonLifetimeEnding}; GetCurrentAsyncTask (no operands) and the
    SIL-operation builtins (lowered earlier) reach [llvm_unreachable]. A
    [builtin] instruction's operands are classified by this classifier. *)
Theorem builtin_classifier_policies :
  (forall b, classifyBuiltin b = Returns allLive
          \/ classifyBuiltin b = Returns (compatibilityMap Owned LifetimeEnding)
          \/ classifyBuiltin b = Returns (compatibilityMap Guaranteed NonLifetimeEnding)
          \/ exists msg, classifyBuiltin b = LLVMUnreachable msg) /\
  (forall b, In b arithmeticComparisonBitcastAtomicBuiltins ->
             classifyBuiltin b = Returns allLive) /\
  (forall id, classifyBuiltin (BuiltinValueKind.LLVMIntrinsic id) = Returns allLive) /\
  classifyBuiltin BuiltinValueKind.COWBufferForReading
    = Returns (compatibilityMap Owned LifetimeEnding) /\
  classifyBuiltin BuiltinValueKind.UnsafeGuaranteed
    = Returns (compatibilityMap Owned LifetimeEnding) /\
  classifyBuiltin BuiltinValueKind.CancelAsyncTask
    = Returns (compatibilityMap Guaranteed NonLifetimeEnding) /\
  classifyBuiltin BuiltinValueKind.GetCurrentAsyncTask
    = LLVMUnreachable shouldNeverVisitBuiltinMessage /\
  (forall name, classifyBuiltin (BuiltinValueKind.BuiltinSILOperation name)
                = LLVMUnreachable loweredBuiltinMessage) /\
  (forall i n b, inst_kind i = Builtin b -> n < length (inst_operands i) ->
                 classify i n = classifyBuiltin b).
Proof.
  repeat split.
  - intros b; destruct b; simpl; eauto 6.
  - intros b Hb. simpl in Hb.
    repeat (destruct Hb as [<- | Hb]; [reflexivity|]). destruct Hb.
  - intros i n b Hk Hn. destruct (nth_error_lt _ _ Hn) as [op Hop].
    unfold classify. rewrite Hop. unfold visit. rewrite Hk. reflexivity.
Qed.

Lemma builtin_classifier_policies_witness :
  classifyBuiltin BuiltinValueKind.AtomicRMW = Returns allLive /\
  classify (sampleBuiltin BuiltinValueKind.CancelAsyncTask) 0
    = classifyBuiltin BuiltinValueKind.CancelAsyncTask.
Proof.
  split.
  - apply (proj1 (proj2 builtin_classifier_policies)). simpl; tauto.
  - apply (proj2 (proj2 (proj2 (proj2 (proj2 (proj2 (proj2 (proj2
             builtin_classifier_policies))))))));
      [reflexivity | simpl; lia].
Defined.

(* ------------------------------------------------------------------------- *)
(** ** Fatal paths *)

Lemma visitCallee_not_reported : forall site j msg,
  visitCallee site <> ReportFatalError j msg.
Proof.
  intros site j msg. unfold visitCallee.
  destruct (callee_convention site); try destruct (callee_is_noescape site);
    discriminate.
Qed.

Lemma visitFullApply_not_reported : forall site n op j msg,
  visitFullApply site n op <> ReportFatalError j msg.
Proof.
  intros site n op j msg. unfold visitFullApply.
  destruct (Nat.eqb n 0); [apply visitCallee_not_reported|].
  destruct (Nat.leb n (num_indirect_results site)); [discriminate|].
  destruct (operand_type_dependent op); [discriminate|]. cbv zeta.
  destruct (nth_error (param_conventions site) (n - 1 - num_indirect_results site))
    as [[]|]; try destruct (use_lowered_addresses site); discriminate.
Qed.

Lemma visitYield_not_reported : forall ys n v j msg,
  visitYield ys n v <> ReportFatalError j msg.
Proof.
  intros ys n v j msg. unfold visitYield.
  destruct (value_is_address v || kind_eqb (value_kind v) None); [discriminate|].
  destruct (nth_error ys n) as [[]|]; discriminate.
Qed.

Lemma visitBranch_not_reported : forall ks n j msg,
  visitBranch ks n <> ReportFatalError j msg.
Proof.
  intros ks n j msg. unfold visitBranch.
  destruct (nth_error ks n) as [k|]; [destruct (kind_eqb k Guaranteed)|]; discriminate.
Qed.

Lemma classifyBuiltin_not_reported : forall b j msg,
  classifyBuiltin b <> ReportFatalError j msg.
Proof. intros b j msg; destruct b; discriminate. Qed.

Definition illegalCalleeConventionMessage : string := "Illegal convention for callee".

Definition sampleApplyInoutCallee : SILInstruction :=
  sampleApply Indirect_Inout false [] false Guaranteed.

(** C9 (counterexample): the callee operand of an apply whose callee
    convention is Indirect_Inout reaches [llvm_unreachable] with the fixed
    message "Illegal convention for callee": no instruction is dumped, unlike
    the [report_fatal_error] path of the never-visited instructions. *)
Lemma inout_callee_diagnostic_names_no_instruction :
  classify sampleApplyInoutCallee 0 = LLVMUnreachable illegalCalleeConventionMessage
  /\ ~ (exists j msg, classify sampleApplyInoutCallee 0 = ReportFatalError j msg).
Proof.
  split; [reflexivity|]. intros [j [msg H]]. discriminate H.
Qed.

Definition sampleAllocStack : SILInstruction :=
  mkInst AllocStack [use (val 1 None)].

(** C9 (amended): an operand of a [SHOULD_NEVER_VISIT_INST] instruction is
    never given a map: the classifier dumps the instruction ("Unhandled inst:")
    and calls [report_fatal_error]; this path is taken for these instructions
    only. The callee operand of a full apply site of convention Indirect_Inout
    or Indirect_InoutAliasable is never given a map either: it reaches
    [llvm_unreachable("Illegal convention for callee")], whose message does
    not name the instruction. *)
Theorem never_visit_and_inout_callee_fatal :
  (forall i n, isNeverVisitInst (inst_kind i) = true ->
               n < length (inst_operands i) ->
               classify i n = ReportFatalError i shouldNeverVisitMessage) /\
  (forall i n j msg, classify i n = ReportFatalError j msg ->
                     isNeverVisitInst (inst_kind i) = true /\ j = i
                     /\ msg = shouldNeverVisitMessage) /\
  (forall i site, fullApplySite (inst_kind i) = Some site ->
                  0 < length (inst_operands i) ->
                  callee_convention site = Indirect_Inout \/
                  callee_convention site = Indirect_InoutAliasable ->
                  classify i 0 = LLVMUnreachable illegalCalleeConventionMessage).
Proof.
  split; [|split].
  - intros i n Hk Hn. destruct (nth_error_lt _ _ Hn) as [op Hop].
    unfold classify. rewrite Hop. unfold visit.
    destruct (inst_kind i); try discriminate Hk; reflexivity.
  - intros i n j msg H. unfold classify in H.
    destruct (nth_error (inst_operands i) n) as [op|]; [|discriminate H].
    unfold visit in H.
    destruct (inst_kind i); simpl in H;
      try (injection H as <- <-; repeat split; reflexivity);
      repeat match type of H with
             | context [if ?c then _ else _] => destruct c
             end;
      try discriminate H; exfalso;
      first [ exact (visitFullApply_not_reported _ _ _ _ _ H)
            | exact (visitYield_not_reported _ _ _ _ _ H)
            | exact (visitBranch_not_reported _ _ _ _ H)
            | exact (classifyBuiltin_not_reported _ _ _ H) ].
  - intros i site Hs Hn Hc. destruct (nth_error_lt _ _ Hn) as [op Hop].
    rewrite (classify_full_apply i 0 op site Hs Hop).
    unfold visitFullApply, visitCallee. simpl.
    destruct Hc as [-> | ->]; reflexivity.
Qed.

Lemma never_visit_and_inout_callee_fatal_witness :
  classify sampleAllocStack 0 = ReportFatalError sampleAllocStack shouldNeverVisitMessage
  /\ classify sampleApplyInoutCallee 0 = LLVMUnreachable illegalCalleeConventionMessage.
Proof.
  split.
  - apply (proj1 never_visit_and_inout_callee_fatal); [reflexivity | simpl; lia].
  - apply (proj2 (proj2 never_visit_and_inout_callee_fatal) sampleApplyInoutCallee
             (mkApplySite Indirect_Inout false 0 [] false));
      [reflexivity | simpl; lia | left; reflexivity].
Defined.

(* ------------------------------------------------------------------------- *)
(** ** Returns *)

Definition sampleReturn (directResultKinds : list ValueOwnershipKind) : SILInstruction :=
  mkInst (Return directResultKinds) [use (val 1 Owned)].

Example return_no_direct_results : classify (sampleReturn []) 0 = Returns emptyMap.
Proof. reflexivity. Qed.

Example return_owned_result :
  classify (sampleReturn [Owned]) 0 = Returns (compatibilityMap Owned LifetimeEnding).
Proof. reflexivity. Qed.

(** Where the direct results merge to None, [visitReturnInst] builds
    {None: NonLifetimeEnding}, while [visitForwardingInst] returns all-live
    for a None merge. *)
Remark return_none_merge_not_all_live :
  classify (sampleReturn [None]) 0 = Returns (compatibilityMap None NonLifetimeEnding)
  /\ visitForwardingInst [use (val 1 None)] = allLive.
Proof. split; reflexivity. Qed.

(** C10: for the operand of a [return] whose type is not trivial, the map is
    empty when the function has no direct results; otherwise it comes from
    [merge] of the direct results' kinds, the merge [visitForwardingInst]
    uses: empty when the merge fails, else {base: forwarding constraint of
    base}. *)
Theorem return_nontrivial_map : forall i n op directResultKinds,
  inst_kind i = Return directResultKinds ->
  nth_error (inst_operands i) n = Some op ->
  value_is_trivial (operand_value op) = false ->
  (directResultKinds = [] -> classify i n = Returns emptyMap) /\
  (directResultKinds <> [] ->
     classify i n = Returns (match merge directResultKinds with
                             | Datatypes.None => emptyMap
                             | Some base =>
                                 compatibilityMap base (getForwardingLifetimeConstraint base)
                             end)).
Proof.
  intros i n op rks Hk Hop Ht.
  unfold classify. rewrite Hop. unfold visit. rewrite Hk, Ht. unfold visitReturn.
  split; intros H; [subst; reflexivity|].
  destruct rks; [contradiction|reflexivity].
Qed.

Lemma return_nontrivial_map_witness :
  classify (sampleReturn []) 0 = Returns emptyMap /\
  classify (sampleReturn [Owned; Guaranteed]) 0 = Returns emptyMap.
Proof.
  split.
  - apply (return_nontrivial_map (sampleReturn []) 0 (use (val 1 Owned)) []);
      reflexivity.
  - apply (return_nontrivial_map (sampleReturn [Owned; Guaranteed]) 0 (use (val 1 Owned))
             [Owned; Guaranteed]); [reflexivity | reflexivity | reflexivity | discriminate].
Defined.

(* ========================================================================= *)
(** * Further properties of the classifier *)

Lemma classify_at : forall i n op,
  nth_error (inst_operands i) n = Some op -> classify i n = visit i n op.
Proof. intros i n op H. unfold classify. rewrite H. reflexivity. Qed.

(** [select_enum] (enum operand 0, case values after it): the enum operand is
    all-live; a case value that is not the enum operand's value gets the
    forwarding merge of the case values alone, so the enum operand's own kind
    never enters the merge; a case value that is the enum operand's value is
    taken for the enum operand and is all-live. *)
Theorem select_enum_operand_map : forall i e cases,
  inst_kind i = SelectEnum ->
  inst_operands i = e :: cases ->
  classify i 0 = Returns allLive /\
  (forall n op, nth_error cases n = Some op ->
     value_eqb (operand_value op) (operand_value e) = false ->
     classify i (S n) = Returns (visitForwardingInst cases)) /\
  (forall n op, nth_error cases n = Some op ->
     value_eqb (operand_value op) (operand_value e) = true ->
     classify i (S n) = Returns allLive).
Proof.
  intros i e cases Hk Hops.
  unfold classify, visit, isOperandValue. rewrite Hk, Hops. simpl.
  rewrite value_eqb_refl. split; [reflexivity|].
  split; intros n op Hn Hv; rewrite Hn, Hv; reflexivity.
Qed.

Definition sampleSelectEnum : SILInstruction :=
  mkInst SelectEnum [use (val 1 Guaranteed); use (val 2 Owned); use (val 3 Owned)].

Lemma select_enum_operand_map_witness :
  classify sampleSelectEnum 1 = Returns (compatibilityMap Owned LifetimeEnding).
Proof.
  apply (proj1 (proj2 (select_enum_operand_map sampleSelectEnum (use (val 1 Guaranteed))
                         [use (val 2 Owned); use (val 3 Owned)] eq_refl eq_refl))
           0 (use (val 2 Owned)) eq_refl eq_refl).
Defined.

(** [mark_dependence] (value operand 0, base operand 1): the value operand
    forwards the instruction's ownership kind (all-live when it is None); a
    base operand with a different value is all-live. *)
Theorem mark_dependence_operand_map : forall i k value base,
  inst_kind i = MarkDependence k ->
  inst_operands i = [value; base] ->
  classify i 0 = Returns (if kind_eqb k None then allLive
                          else compatibilityMap k (getForwardingLifetimeConstraint k)) /\
  (value_eqb (operand_value base) (operand_value value) = false ->
   classify i 1 = Returns allLive).
Proof.
  intros i k value base Hk Hops.
  unfold classify, visit, isOperandValue. rewrite Hk, Hops. simpl.
  rewrite value_eqb_refl. split; [destruct (kind_eqb k None); reflexivity|].
  intros Hv. rewrite Hv. reflexivity.
Qed.

Lemma mark_dependence_operand_map_witness :
  classify (mkInst (MarkDependence Owned) [use (val 1 Owned); use (val 2 Guaranteed)]) 1
  = Returns allLive.
Proof.
  apply (proj2 (mark_dependence_operand_map
                  (mkInst (MarkDependence Owned) [use (val 1 Owned); use (val 2 Guaranteed)])
                  Owned (use (val 1 Owned))
                  (use (val 2 Guaranteed)) eq_refl eq_refl)).
  reflexivity.
Defined.

(** [store_borrow] (source operand 0, an object; destination operand 1, an
    address): the source is borrowed, {Guaranteed: NonLifetimeEnding}, and
    the destination is all-live. *)
Theorem store_borrow_operand_map : forall i src dest,
  inst_kind i = StoreBorrow ->
  inst_operands i = [src; dest] ->
  value_is_address (operand_value src) = false ->
  value_is_address (operand_value dest) = true ->
  classify i 0 = Returns (compatibilityMap Guaranteed NonLifetimeEnding) /\
  classify i 1 = Returns allLive.
Proof.
  intros i src dest Hk Hops Hs Hd.
  unfold classify, visit, isOperandValue. rewrite Hk, Hops. simpl.
  rewrite value_eqb_refl, value_eqb_address_differs by congruence.
  split; reflexivity.
Qed.

Lemma store_borrow_operand_map_witness :
  classify (mkInst StoreBorrow [use (val 1 Guaranteed);
                                mkOperand (mkValue 2 None true true) false]) 0
  = Returns (compatibilityMap Guaranteed NonLifetimeEnding).
Proof.
  apply (store_borrow_operand_map
           (mkInst StoreBorrow [use (val 1 Guaranteed);
                                mkOperand (mkValue 2 None true true) false])
           (use (val 1 Guaranteed))
           (mkOperand (mkValue 2 None true true) false)); reflexivity.
Defined.

(** [assign] and [assign_by_wrapper] (source operand 0, an object): the
    source is consumed, {Owned: LifetimeEnding}; every operand holding a
    value other than the source's is all-live. *)
Theorem assign_operand_map : forall i src n op,
  (inst_kind i = Assign \/ inst_kind i = AssignByWrapper) ->
  nth_error (inst_operands i) 0 = Some src ->
  nth_error (inst_operands i) n = Some op ->
  classify i 0 = Returns (compatibilityMap Owned LifetimeEnding) /\
  (value_eqb (operand_value op) (operand_value src) = false ->
   classify i n = Returns allLive).
Proof.
  intros i src n op Hk H0 Hn.
  rewrite (classify_at i 0 src H0), (classify_at i n op Hn).
  unfold visit, isOperandValue. rewrite H0, value_eqb_refl.
  destruct Hk as [Hk|Hk]; rewrite Hk; simpl;
    (split; [reflexivity | intros Hv; rewrite Hv; reflexivity]).
Qed.

Definition sampleAssign : SILInstruction :=
  mkInst AssignByWrapper [use (val 1 Owned); mkOperand (mkValue 2 None true true) false;
                          use (val 3 Guaranteed); use (val 4 Guaranteed)].

Lemma assign_operand_map_witness : classify sampleAssign 2 = Returns allLive.
Proof.
  apply (proj2 (assign_operand_map sampleAssign (use (val 1 Owned)) 2
                  (use (val 3 Guaranteed)) (or_intror eq_refl) eq_refl eq_refl)).
  reflexivity.
Defined.

(** [dealloc_partial_ref] (instance operand 0) and
    [copy_block_without_escaping] (closure operand 1): the instance, resp.
    the closure, is consumed, {Owned: LifetimeEnding}; the other operand,
    holding a different value, is all-live. *)
Theorem consuming_role_operand_map : forall i a b,
  inst_operands i = [a; b] ->
  value_eqb (operand_value b) (operand_value a) = false ->
  value_eqb (operand_value a) (operand_value b) = false ->
  (inst_kind i = DeallocPartialRef ->
     classify i 0 = Returns (compatibilityMap Owned LifetimeEnding) /\
     classify i 1 = Returns allLive) /\
  (inst_kind i = CopyBlockWithoutEscaping ->
     classify i 0 = Returns allLive /\
     classify i 1 = Returns (compatibilityMap Owned LifetimeEnding)).
Proof.
  intros i a b Hops Hba Hab.
  split; intros Hk; unfold classify, visit, isOperandValue; rewrite Hk, Hops; simpl;
    rewrite !value_eqb_refl, ?Hba, ?Hab; split; reflexivity.
Qed.

Definition sampleDeallocPartialRef : SILInstruction :=
  mkInst DeallocPartialRef [use (val 1 Owned); use (val 2 None)].

Lemma consuming_role_operand_map_witness :
  classify sampleDeallocPartialRef 0 = Returns (compatibilityMap Owned LifetimeEnding)
  /\ classify sampleDeallocPartialRef 1 = Returns allLive.
Proof.
  apply (proj1 (consuming_role_operand_map sampleDeallocPartialRef
                  (use (val 1 Owned)) (use (val 2 None)) eq_refl eq_refl eq_refl)).
  reflexivity.
Defined.

(** [switch_enum] and [checked_cast_br]: the map accepts exactly the
    operand's own ownership kind, lifetime ending exactly when that kind is
    Owned. *)
Theorem switch_operand_accepts_own_kind : forall i n op,
  (inst_kind i = SwitchEnum \/ inst_kind i = CheckedCastBranch) ->
  nth_error (inst_operands i) n = Some op ->
  exists m, classify i n = Returns m /\
    getLifetimeConstraint m (value_kind (operand_value op))
      = Some (if kind_eqb (value_kind (operand_value op)) Owned
              then LifetimeEnding else NonLifetimeEnding) /\
    (forall k, k <> value_kind (operand_value op) ->
               getLifetimeConstraint m k = Datatypes.None).
Proof.
  intros i n op Hk Hop. rewrite (classify_at i n op Hop). unfold visit.
  eexists. split; [destruct Hk as [-> | ->]; reflexivity|].
  destruct (value_kind (operand_value op)); split;
    try reflexivity; intros [] Hne; try congruence; reflexivity.
Qed.

Lemma switch_operand_accepts_own_kind_witness :
  exists m, classify (mkInst SwitchEnum [use (val 1 Guaranteed)]) 0 = Returns m /\
    getLifetimeConstraint m Guaranteed = Some NonLifetimeEnding /\
    (forall k, k <> Guaranteed -> getLifetimeConstraint m k = Datatypes.None).
Proof.
  apply (switch_operand_accepts_own_kind (mkInst SwitchEnum [use (val 1 Guaranteed)]) 0
           (use (val 1 Guaranteed)) (or_introl eq_refl) eq_refl).
Defined.

(** The remaining roles of a full apply site's operands: indirect results
    are all-live; operands past the indirect results that are type dependent
    get the empty map; an argument of convention Direct_Owned, or
    Indirect_In without lowered addresses, is consumed, {Owned:
    LifetimeEnding}; an argument of convention Direct_Unowned,
    Indirect_In_Constant, Indirect_Inout or Indirect_InoutAliasable, or of an
    indirect-in convention with lowered addresses, is all-live. *)
Theorem apply_operand_roles : forall i n op site,
  fullApplySite (inst_kind i) = Some site ->
  nth_error (inst_operands i) n = Some op ->
  (1 <= n <= num_indirect_results site -> classify i n = Returns allLive) /\
  (num_indirect_results site < n -> operand_type_dependent op = true ->
     classify i n = Returns emptyMap) /\
  (forall conv,
     num_indirect_results site < n -> operand_type_dependent op = false ->
     nth_error (param_conventions site) (n - 1 - num_indirect_results site) = Some conv ->
     (conv = Direct_Owned \/ (conv = Indirect_In /\ use_lowered_addresses site = false) ->
        classify i n = Returns (compatibilityMap Owned LifetimeEnding)) /\
     (In conv [Direct_Unowned; Indirect_In_Constant; Indirect_Inout; Indirect_InoutAliasable]
      \/ (In conv [Indirect_In; Indirect_In_Guaranteed] /\ use_lowered_addresses site = true) ->
        classify i n = Returns allLive)).
Proof.
  intros i n op site Hs Hop. rewrite (classify_full_apply i n op site Hs Hop).
  unfold visitFullApply.
  split; [|split].
  - intros Hn. destruct (Nat.eqb n 0) eqn:E0; [apply Nat.eqb_eq in E0; lia|].
    destruct (Nat.leb n (num_indirect_results site)) eqn:E1; [reflexivity|].
    apply Nat.leb_gt in E1; lia.
  - intros Hn Htd. destruct (Nat.eqb n 0) eqn:E0; [apply Nat.eqb_eq in E0; lia|].
    destruct (Nat.leb n (num_indirect_results site)) eqn:E1; [apply Nat.leb_le in E1; lia|].
    rewrite Htd. reflexivity.
  - intros conv Hn Htd Hc. destruct (Nat.eqb n 0) eqn:E0; [apply Nat.eqb_eq in E0; lia|].
    destruct (Nat.leb n (num_indirect_results site)) eqn:E1; [apply Nat.leb_le in E1; lia|].
    rewrite Htd. cbv zeta. rewrite Hc. split.
    + intros [-> | [-> Hl]]; [|rewrite Hl]; reflexivity.
    + intros [Hin | [Hin Hl]]; simpl in Hin;
        repeat (destruct Hin as [<- | Hin]; [try rewrite Hl; reflexivity|]); destruct Hin.
Qed.

Lemma apply_operand_roles_witness :
  classify (sampleApply Direct_Guaranteed false [Direct_Owned] false Guaranteed) 1
  = Returns (compatibilityMap Owned LifetimeEnding).
Proof.
  apply (proj1 (proj2 (proj2 (apply_operand_roles
           (sampleApply Direct_Guaranteed false [Direct_Owned] false Guaranteed) 1
           (use (val 2 Guaranteed))
           (mkApplySite Direct_Guaranteed false 0 [Direct_Owned] false) eq_refl eq_refl))
           Direct_Owned ltac:(simpl; lia) eq_refl eq_refl)).
  left; reflexivity.
Defined.



(** [yield]: a yielded address, or a value of kind None, is all-live;
    otherwise the yield's convention decides: Indirect_In and Direct_Owned
    consume, Indirect_In_Constant and Direct_Unowned accept anything,
    Indirect_In_Guaranteed and Direct_Guaranteed borrow (also from an owned
    value), and the inout conventions are unreachable. *)
Theorem yield_operand_map : forall i ys n op,
  inst_kind i = Yield ys ->
  nth_error (inst_operands i) n = Some op ->
  (value_is_address (operand_value op) = true \/ value_kind (operand_value op) = None ->
     classify i n = Returns allLive) /\
  (value_is_address (operand_value op) = false -> value_kind (operand_value op) <> None ->
   forall conv, nth_error ys n = Some conv ->
     (In conv [Indirect_In; Direct_Owned] ->
        classify i n = Returns (compatibilityMap Owned LifetimeEnding)) /\
     (In conv [Indirect_In_Constant; Direct_Unowned] -> classify i n = Returns allLive) /\
     (In conv [Indirect_In_Guaranteed; Direct_Guaranteed] ->
        classify i n = Returns (compatibilityMapList [(Guaranteed, NonLifetimeEnding);
                                                      (Owned, NonLifetimeEnding)])) /\
     (In conv [Indirect_Inout; Indirect_InoutAliasable] ->
        classify i n = LLVMUnreachable "Unexpected non-trivial parameter convention.")).
Proof.
  intros i ys n op Hk Hop. rewrite (classify_at i n op Hop). unfold visit, visitYield.
  rewrite Hk. split.
  - intros [H | H]; rewrite H; [reflexivity|].
    rewrite orb_true_r; reflexivity.
  - intros Ha Hn conv Hc. rewrite Ha.
    destruct (value_kind (operand_value op)); [congruence| |]; simpl; rewrite Hc;
      repeat split; intros Hin; simpl in Hin;
      repeat (destruct Hin as [<- | Hin]; [reflexivity|]); destruct Hin.
Qed.

Lemma yield_operand_map_witness :
  classify (mkInst (Yield [Direct_Guaranteed]) [use (val 1 Owned)]) 0
  = Returns (compatibilityMapList [(Guaranteed, NonLifetimeEnding); (Owned, NonLifetimeEnding)]).
Proof.
  apply (proj1 (proj2 (proj2 (proj2 (yield_operand_map
           (mkInst (Yield [Direct_Guaranteed]) [use (val 1 Owned)]) [Direct_Guaranteed] 0
           (use (val 1 Owned)) eq_refl eq_refl) eq_refl ltac:(discriminate)
           Direct_Guaranteed eq_refl)))).
  simpl; auto.
Defined.

(* ------------------------------------------------------------------------- *)
(** ** The maps the classifier can return *)

Lemma visitForwardingInst_shape : forall ops,
  (visitForwardingInst ops = emptyMap /\ merge (forwardedKinds ops) = Datatypes.None)
  \/ visitForwardingInst ops = allLive
  \/ exists k, visitForwardingInst ops = compatibilityMap k (getForwardingLifetimeConstraint k).
Proof.
  intros ops. unfold visitForwardingInst.
  destruct (merge (forwardedKinds ops)) as [k|].
  - destruct k; [right; left; reflexivity | right; right; eexists; reflexivity ..].
  - left; split; reflexivity.
Qed.

Lemma visitReturn_shape : forall rs t,
  visitReturn rs t = allLive
  \/ (visitReturn rs t = emptyMap /\ t = false /\ (rs = [] \/ merge rs = Datatypes.None))
  \/ exists k, visitReturn rs t = compatibilityMap k (getForwardingLifetimeConstraint k).
Proof.
  intros rs t. unfold visitReturn. destruct t; [left; reflexivity|].
  destruct rs as [|r rs']; [right; left; auto|].
  destruct (merge (r :: rs')) eqn:E; [right; right; eexists; reflexivity | right; left; auto].
Qed.

Lemma visitFullApply_shape : forall site n op m,
  visitFullApply site n op = Returns m ->
  m = allLive \/ m = compatibilityMap Owned LifetimeEnding
  \/ m = compatibilityMap Guaranteed NonLifetimeEnding
  \/ m = compatibilityMapList [(Guaranteed, NonLifetimeEnding); (Owned, NonLifetimeEnding)]
  \/ (m = emptyMap /\ 0 < n /\ operand_type_dependent op = true).
Proof.
  intros site n op m H. unfold visitFullApply, visitCallee, visitApplyParameter in H.
  destruct (Nat.eqb n 0) eqn:E0.
  - destruct (callee_convention site); try destruct (callee_is_noescape site);
      try discriminate H; injection H as <-; auto 10.
  - apply Nat.eqb_neq in E0.
    destruct (Nat.leb n (num_indirect_results site)); [injection H as <-; auto|].
    destruct (operand_type_dependent op) eqn:Et.
    + injection H as <-. right; right; right; right; split; [reflexivity | split; [lia | reflexivity]].
    + destruct (nth_error _ _) as [[]|]; try destruct (use_lowered_addresses site);
        try discriminate H; injection H as <-; auto 10.
Qed.

Lemma visitYield_shape : forall ys n v m,
  visitYield ys n v = Returns m ->
  m = allLive \/ m = compatibilityMap Owned LifetimeEnding
  \/ m = compatibilityMapList [(Guaranteed, NonLifetimeEnding); (Owned, NonLifetimeEnding)].
Proof.
  intros ys n v m H. unfold visitYield, visitApplyParameter in H.
  destruct (_ || _); [injection H as <-; auto|].
  destruct (nth_error ys n) as [[]|]; try discriminate H; injection H as <-; auto.
Qed.

Lemma visitBranch_shape : forall ks n m,
  visitBranch ks n = Returns m ->
  exists k, nth_error ks n = Some k /\
    ((k = Guaranteed /\ m = compatibilityMap Guaranteed LifetimeEnding)
     \/ m = compatibilityMap k (getForwardingLifetimeConstraint k)).
Proof.
  intros ks n m H. unfold visitBranch in H.
  destruct (nth_error ks n) as [k|]; [|discriminate H].
  exists k; split; [reflexivity|].
  destruct (kind_eqb k Guaranteed) eqn:E; injection H as <-; [left|right; reflexivity].
  apply kind_eqb_eq in E; subst; auto.
Qed.

Lemma classifyBuiltin_shape : forall b m,
  classifyBuiltin b = Returns m ->
  m = allLive \/ m = compatibilityMap Owned LifetimeEnding
  \/ m = compatibilityMap Guaranteed NonLifetimeEnding.
Proof.
  intros b m H. destruct b; simpl in H; try discriminate H; injection H as <-; auto.
Qed.

(** Where an empty map (no ownership kind accepted) comes from: a
    forwarding instruction whose operands' kinds do not merge, the cases of
    a [select_enum] that do not merge, a type-dependent argument of a full
    apply site, or a non-trivial returned value with no direct results or
    direct results that do not merge. *)
Definition emptyMapSource (i : SILInstruction) (n : nat) : Prop :=
  (isForwardAnyInst (inst_kind i) = true
   /\ merge (forwardedKinds (inst_operands i)) = Datatypes.None)
  \/ (inst_kind i = SelectEnum
      /\ merge (forwardedKinds (tl (inst_operands i))) = Datatypes.None)
  \/ (exists site op, fullApplySite (inst_kind i) = Some site
      /\ nth_error (inst_operands i) n = Some op /\ 0 < n
      /\ operand_type_dependent op = true)
  \/ (exists rs op, inst_kind i = Return rs
      /\ nth_error (inst_operands i) n = Some op
      /\ value_is_trivial (operand_value op) = false
      /\ (rs = [] \/ merge rs = Datatypes.None)).

Lemma classify_map_shape : forall i n m,
  classify i n = Returns m ->
  m = allLive
  \/ m = compatibilityMap Owned LifetimeEnding
  \/ m = compatibilityMap Guaranteed NonLifetimeEnding
  \/ m = compatibilityMap None NonLifetimeEnding
  \/ m = compatibilityMapList [(Guaranteed, NonLifetimeEnding); (Owned, NonLifetimeEnding)]
  \/ (exists k, m = compatibilityMap k (getForwardingLifetimeConstraint k))
  \/ (m = compatibilityMap Guaranteed LifetimeEnding
      /\ (inst_kind i = EndBorrow
          \/ exists ks, inst_kind i = Branch ks /\ nth_error ks n = Some Guaranteed))
  \/ (m = emptyMap /\ emptyMapSource i n).
Proof.
  intros i n m H. unfold classify in H.
  destruct (nth_error (inst_operands i) n) as [op|] eqn:Hop; [|discriminate H].
  unfold visit in H. destruct (inst_kind i) eqn:Hk;
    repeat match type of H with context [if ?c then _ else _] => destruct c end;
    try discriminate H.
  all: try (injection H as <-; eauto 10; fail).
  all: try (match type of H with
            | Returns (visitForwardingInst ?ops) = _ =>
                destruct (visitForwardingInst_shape ops) as [[He Hm] | [He | [k He]]];
                rewrite He in H; injection H as <-;
                [ right; right; right; right; right; right; right; split; [reflexivity|];
                  unfold emptyMapSource; rewrite Hk; simpl; auto
                | auto | eauto 10 ]
            end; fail).
  all: try (match type of H with
            | Returns (visitReturn ?rs ?t) = _ =>
                destruct (visitReturn_shape rs t) as [He | [[He [Ht Hr]] | [k He]]];
                rewrite He in H; injection H as <-;
                [ auto
                | right; right; right; right; right; right; right; split; [reflexivity|];
                  unfold emptyMapSource; rewrite Hk; right; right; right; eauto 8
                | eauto 10 ]
            end; fail).
  all: try (match type of H with
            | visitFullApply ?site _ _ = _ =>
                apply visitFullApply_shape in H;
                destruct H as [-> | [-> | [-> | [-> | [-> [Hn Ht]]]]]];
                [auto 10 | auto 10 | auto 10 | auto 10 |
                 right; right; right; right; right; right; right; split; [reflexivity|];
                 unfold emptyMapSource; rewrite Hk; right; right; left;
                 do 2 eexists; split; [reflexivity|]; eauto]
            end; fail).
  all: try (match type of H with
            | visitYield _ _ _ = _ =>
                apply visitYield_shape in H; destruct H as [-> | [-> | ->]]; auto 10
            end; fail).
  all: try (match type of H with
            | classifyBuiltin _ = _ =>
                apply classifyBuiltin_shape in H; destruct H as [-> | [-> | ->]]; auto 10
            end; fail).
  all: try (match type of H with
            | visitBranch _ _ = _ =>
                apply visitBranch_shape in H;
                destruct H as [k [Hk' [[-> ->] | ->]]]; eauto 12
            end; fail).
Qed.

(** Only [end_borrow], and a [br] operand passed to a guaranteed block
    argument, end the lifetime of a guaranteed value: no other instruction
    or operand returns a map binding Guaranteed to LifetimeEnding. *)
Theorem guaranteed_lifetime_ending_users : forall i n m,
  classify i n = Returns m ->
  getLifetimeConstraint m Guaranteed = Some LifetimeEnding ->
  inst_kind i = EndBorrow
  \/ exists ks, inst_kind i = Branch ks /\ nth_error ks n = Some Guaranteed.
Proof.
  intros i n m H Hg. apply classify_map_shape in H.
  destruct H as [-> | [-> | [-> | [-> | [-> | [[k ->] | [[-> Hs] | [-> _]]]]]]]];
    try discriminate Hg; auto.
  destruct k; discriminate Hg.
Qed.

Lemma guaranteed_lifetime_ending_users_witness :
  inst_kind (sampleBranch [Owned; Guaranteed]) = EndBorrow
  \/ exists ks, inst_kind (sampleBranch [Owned; Guaranteed]) = Branch ks
                /\ nth_error ks 1 = Some Guaranteed.
Proof.
  apply (guaranteed_lifetime_ending_users (sampleBranch [Owned; Guaranteed]) 1
           (compatibilityMap Guaranteed LifetimeEnding)); reflexivity.
Defined.

(** No operand ever consumes a value of kind None: whatever map the
    classifier returns, None is unbound or bound to NonLifetimeEnding. *)
Theorem none_never_lifetime_ending : forall i n m,
  classify i n = Returns m ->
  getLifetimeConstraint m None <> Some LifetimeEnding.
Proof.
  intros i n m H. apply classify_map_shape in H.
  destruct H as [-> | [-> | [-> | [-> | [-> | [[k ->] | [[-> Hs] | [-> _]]]]]]]];
    try discriminate.
  destruct k; discriminate.
Qed.

Lemma none_never_lifetime_ending_witness :
  getLifetimeConstraint (compatibilityMap None NonLifetimeEnding) None <> Some LifetimeEnding.
Proof.
  apply (none_never_lifetime_ending (sampleBranch [None]) 0); reflexivity.
Defined.

(** The empty map, which accepts no ownership kind, is returned only for the
    operand of a forwarding instruction whose operand kinds do not merge, a
    case of a [select_enum] whose cases do not merge, a type-dependent
    argument of an apply site, or a non-trivial returned value when the
    function has no direct results or they do not merge. *)
Theorem empty_map_sources : forall i n,
  classify i n = Returns emptyMap -> emptyMapSource i n.
Proof.
  intros i n H. apply classify_map_shape in H.
  destruct H as [H | [H | [H | [H | [H | [[k H] | [[H Hs] | [_ Hs]]]]]]]];
    try discriminate H; auto.
  destruct k; discriminate H.
Qed.

Lemma empty_map_sources_witness :
  emptyMapSource (mkInst Tuple [use (val 1 Owned); use (val 2 Guaranteed)]) 0.
Proof.
  apply (empty_map_sources (mkInst Tuple [use (val 1 Owned); use (val 2 Guaranteed)]) 0).
  reflexivity.
Defined.

(* ------------------------------------------------------------------------- *)
(** ** Forwarding ignores type-dependent and trivial operands *)

Lemma merge_insert_none : forall ks1 ks2 : list ValueOwnershipKind,
  merge (ks1 ++ None :: ks2)%list = merge (ks1 ++ ks2)%list.
Proof.
  intros ks1 ks2. unfold merge. rewrite !fold_left_app. simpl.
  destruct (fold_left _ ks1 (Some None)) as [a|]; [destruct a|]; reflexivity.
Qed.

(** Every operand of a forwarding instruction gets the same map with or
    without an extra operand that is type dependent or holds a value of kind
    None. *)
Theorem forwarding_ignores_inert_operand :
  forall i (ops1 : list Operand) o ops2 n,
  isForwardAnyInst (inst_kind i) = true ->
  inst_operands i = (ops1 ++ o :: ops2)%list ->
  operand_type_dependent o = true \/ value_kind (operand_value o) = None ->
  n < length (inst_operands i) ->
  classify i n = Returns (visitForwardingInst (ops1 ++ ops2)%list).
Proof.
  intros i ops1 o ops2 n Hf Hops Ho Hn.
  rewrite (classify_forwarding i n Hf Hn), Hops. f_equal.
  unfold visitForwardingInst, forwardedKinds. f_equal.
  rewrite !filter_app, !map_app. simpl.
  destruct Ho as [Ho | Ho]; rewrite ?Ho; simpl; [reflexivity|].
  destruct (operand_type_dependent o); simpl; [reflexivity|].
  rewrite Ho, merge_insert_none. reflexivity.
Qed.

Lemma forwarding_ignores_inert_operand_witness :
  classify (mkInst Struct [use (val 1 Owned); use (val 2 None)]) 0
  = Returns (visitForwardingInst [use (val 1 Owned)]).
Proof.
  apply (forwarding_ignores_inert_operand
           (mkInst Struct [use (val 1 Owned); use (val 2 None)])
           [use (val 1 Owned)] (use (val 2 None)) [] 0 eq_refl eq_refl
           (or_intror eq_refl)).
  simpl; lia.
Defined.

(* ------------------------------------------------------------------------- *)
(** ** When the classifier returns no map *)








(* ========================================================================= *)
(** * SourceLoader: importing a .swift file as a module *)

(** [llvm::error_code]: zero is success ([!err]); [no_such_file_or_directory]
    is the one error [loadModule] does not report. *)
Inductive error_code : Type :=
  | success
  | no_such_file_or_directory
  | other_error (value : nat).

(** [operator bool] of [error_code]: true for an error. *)
Definition is_error (e : error_code) : bool :=
  match e with
  | success => false
  | _ => true
  end.

Definition is_no_such_file (e : error_code) : bool :=
  match e with
  | no_such_file_or_directory => true
  | _ => false
  end.

(** A source location. [Datatypes.None] is the invalid location; a valid
    location is represented by the identifier of the buffer that contains it,
    which is what [findBufferContainingLoc] followed by [getMemoryBuffer] and
    [getBufferIdentifier] yields. *)
Definition SourceLoc : Type := option string.

(** What [findModule] leaves behind: the identifier of the opened buffer
    ([getFile] names the buffer after the file), or the error it returns. *)
Inductive FindResult : Type :=
  | Found (bufferIdentifier : string)
  | NotFound (err : error_code).

(** The phases run on the imported file. *)
Inductive Phase : Type :=
  | ParseIntoSourceFile (bufferID : nat) (delayBodies : bool)
  | PerformDelayedParsing
  | PerformNameBinding
  | PerformTypeChecking.

(** [diag::sema_opening_import] at a location, with the module name and the
    error message. *)
Inductive Diagnostic : Type :=
  | sema_opening_import (loc : SourceLoc) (moduleName : string) (message : string).

(** A [Module] with the buffer IDs of its (Library) source files. *)
Record ModuleDecl : Type := mkModule {
  module_name : string;
  module_files : list nat
}.

(** The parts of [ASTContext] that [loadModule] touches:
    [LoadedModules] as an association list, the [SourceMgr] buffers by
    buffer ID (their identifiers), the emitted diagnostics,
    [LangOpts.DebugConstraintSolver], and the log of the phases run on
    imported files, each with the value of [DebugConstraintSolver] while it
    ran. *)
Record ASTContext : Type := mkCtx {
  loadedModules : list (string * ModuleDecl);
  sourceBuffers : list string;
  diagnostics : list Diagnostic;
  debugConstraintSolver : bool;
  phaseLog : list (Phase * bool)
}.


(** [Ctx.LoadedModules[name] = m]: overwrite the entry, or add one. *)
Fixpoint setLoaded (name : string) (m : ModuleDecl) (ms : list (string * ModuleDecl))
  : list (string * ModuleDecl) :=
  match ms with
  | [] => [(name, m)]
  | (n, m') :: rest =>
      if String.eqb n name then (n, m) :: rest else (n, m') :: setLoaded name m rest
  end.

(** [SourceManager::getIDForBufferIdentifier]. *)
Fixpoint indexOf (s : string) (l : list string) : option nat :=
  match l with
  | [] => Datatypes.None
  | x :: rest =>
      if String.eqb x s then Some 0
      else match indexOf s rest with
           | Some k => Some (S k)
           | Datatypes.None => Datatypes.None
           end
  end.

(** [LoadModule]'s outcomes: the module, [nullptr], or a failed assertion. *)
Inductive LoadResult : Type :=
  | Loaded (m : ModuleDecl) (ctx : ASTContext)
  | NullModule (ctx : ASTContext)
  | LoadAssertionFailure (message : string).

Section SourceLoaderModel.

(** [llvm::MemoryBuffer::getFile] on a file name: success or an error. *)
Variable getFile : string -> error_code.
(** [llvm::sys::path::parent_path] and [llvm::sys::path::append]. *)
Variable parent_path : string -> string.
Variable path_append : string -> string -> string.
(** [error_code::message]. *)
Variable message : error_code -> string.

Definition moduleFilename (moduleID : string) : string := moduleID ++ ".swift".

(** The loop over [ctx.ImportSearchPaths]; [err] is the error of the last
    attempt. *)
Fixpoint searchImportPaths (paths : list string) (file : string) (err : error_code)
  : FindResult :=
  match paths with
  | [] => NotFound err
  | path :: rest =>
      let inputFilename := path_append path file in
      let err' := getFile inputFilename in
      if is_error err' then searchImportPaths rest file err' else Found inputFilename
  end.

(** [findModule]: the directory of the importing buffer, then the current
    directory, then each import search path. *)
Definition findModule (importSearchPaths : list string) (moduleID : string)
  (importLoc : SourceLoc) : FindResult :=
  let file := moduleFilename moduleID in
  let fromImportingDirectory :=
    match importLoc with
    | Some importingBuffer =>
        let currentDirectory := parent_path importingBuffer in
        if String.eqb currentDirectory "" then Datatypes.None
        else
          let inputFilename := path_append currentDirectory file in
          if is_error (getFile inputFilename) then Datatypes.None
          else Some inputFilename
    | Datatypes.None => Datatypes.None
    end in
  match fromImportingDirectory with
  | Some inputFilename => Found inputFilename
  | Datatypes.None =>
      let err := getFile file in
      if is_error err then searchImportPaths importSearchPaths file err
      else Found file
  end.

(** Run a phase: record it with the current [DebugConstraintSolver]. *)
Definition runPhase (p : Phase) (ctx : ASTContext) : ASTContext :=
  mkCtx (loadedModules ctx) (sourceBuffers ctx) (diagnostics ctx)
        (debugConstraintSolver ctx) ((phaseLog ctx ++ [(p, debugConstraintSolver ctx)])%list).

Definition setDebug (b : bool) (ctx : ASTContext) : ASTContext :=
  mkCtx (loadedModules ctx) (sourceBuffers ctx) (diagnostics ctx) b (phaseLog ctx).

Definition diagnose (d : Diagnostic) (ctx : ASTContext) : ASTContext :=
  mkCtx (loadedModules ctx) (sourceBuffers ctx) ((diagnostics ctx ++ [d])%list)
        (debugConstraintSolver ctx) (phaseLog ctx).

(** [SourceLoader::loadModule]. The path elements are module names with the
    location of the name; [path[0]] on an empty path fails [ArrayRef]'s
    assertion. The module is stored in [LoadedModules] before its file is
    added, but it is the same object, so the entry holds the module with its
    file. *)
Definition loadModule (skipBodies : bool) (importSearchPaths : list string)
  (ctx : ASTContext) (importLoc : SourceLoc) (path : list (string * SourceLoc))
  : LoadResult :=
  if Nat.ltb 1 (length path) then NullModule ctx
  else
    match path with
    | [] => LoadAssertionFailure "Invalid index!"
    | (name, nameLoc) :: _ =>
        match findModule importSearchPaths name nameLoc with
        | NotFound err =>
            if is_no_such_file err then NullModule ctx
            else NullModule (diagnose (sema_opening_import nameLoc name (message err)) ctx)
        | Found bufferIdentifier =>
            let savedDebug := debugConstraintSolver ctx in
            let ctx1 := setDebug false ctx in
            let '(buffers, bufferID) :=
              match indexOf bufferIdentifier (sourceBuffers ctx1) with
              | Some id => (sourceBuffers ctx1, id)
              | Datatypes.None =>
                  ((sourceBuffers ctx1 ++ [bufferIdentifier])%list, length (sourceBuffers ctx1))
              end in
            let importMod := mkModule name [bufferID] in
            let ctx2 := mkCtx (setLoaded name importMod (loadedModules ctx1)) buffers
                              (diagnostics ctx1) (debugConstraintSolver ctx1)
                              (phaseLog ctx1) in
            let ctx3 := runPhase (ParseIntoSourceFile bufferID skipBodies) ctx2 in
            let ctx4 := if skipBodies then runPhase PerformDelayedParsing ctx3 else ctx3 in
            let ctx5 := if skipBodies then runPhase PerformNameBinding ctx4
                        else runPhase PerformTypeChecking ctx4 in
            Loaded importMod (setDebug savedDebug ctx5)
        end
    end.

(** The files [findModule] tries, in order: the module file in the
    importing buffer's directory (for a valid location whose directory is
    not empty), the module file itself, then the module file in each import
    search path. *)
Definition candidates (importSearchPaths : list string) (moduleID : string)
  (importLoc : SourceLoc) : list string :=
  let file := moduleFilename moduleID in
  ((match importLoc with
    | Some importingBuffer =>
        let d := parent_path importingBuffer in
        if String.eqb d "" then [] else [path_append d file]
    | Datatypes.None => []
    end) ++ file :: map (fun path => path_append path file) importSearchPaths)%list.

Lemma last_cons_default : forall (A : Type) (l : list A) (x d : A),
  last (x :: l) d = last l x.
Proof.
  intros A l; induction l as [|y l IH]; intros x d; [reflexivity|].
  change (last (y :: l) d = last (y :: l) x). rewrite !IH. reflexivity.
Qed.

Lemma searchImportPaths_first : forall paths file err,
  searchImportPaths paths file err =
  match find (fun f => negb (is_error (getFile f)))
             (map (fun path => path_append path file) paths) with
  | Some f => Found f
  | Datatypes.None =>
      NotFound (last (map getFile (map (fun path => path_append path file) paths)) err)
  end.
Proof.
  intros paths file; induction paths as [|p ps IH]; intros err; [reflexivity|].
  simpl. destruct (is_error (getFile (path_append p file))) eqn:E; simpl; [|reflexivity].
  rewrite IH. destruct (find _ _); [reflexivity|]. f_equal.
  destruct (map getFile (map (fun path => path_append path file) ps)) as [|y l]; [reflexivity|].
  rewrite !last_cons_default. reflexivity.
Qed.

(** [findModule] returns the first candidate file that opens; when none
    does, it returns the error of the last attempt, which is never the one
    in the importing directory. *)
Theorem findModule_first_candidate : forall importSearchPaths moduleID importLoc,
  findModule importSearchPaths moduleID importLoc =
  match find (fun f => negb (is_error (getFile f)))
             (candidates importSearchPaths moduleID importLoc) with
  | Some f => Found f
  | Datatypes.None =>
      NotFound (last (map getFile (candidates importSearchPaths moduleID importLoc)) success)
  end.
Proof.
  intros paths moduleID importLoc. unfold findModule, candidates. cbv zeta.
  set (file := moduleFilename moduleID).
  assert (Hrest :
    (if is_error (getFile file) then searchImportPaths paths file (getFile file)
     else Found file) =
    match find (fun f => negb (is_error (getFile f)))
               (file :: map (fun path => path_append path file) paths) with
    | Some f => Found f
    | Datatypes.None =>
        NotFound (last (map getFile (file :: map (fun path => path_append path file) paths))
                       success)
    end).
  { cbn [find]. destruct (is_error (getFile file)) eqn:E; cbn [negb]; [|reflexivity].
    rewrite searchImportPaths_first. destruct (find _ _); [reflexivity|].
    cbn [map]. rewrite last_cons_default. reflexivity. }
  destruct importLoc as [b|]; [|exact Hrest].
  destruct (String.eqb (parent_path b) "") eqn:Ed; [exact Hrest|].
  cbn [app].
  destruct (is_error (getFile (path_append (parent_path b) file))) eqn:E;
    [|cbn [find]; rewrite E; reflexivity].
  lazy beta iota. rewrite Hrest. cbn [find]. rewrite E. cbn [negb]. lazy beta iota.
  destruct (negb (is_error (getFile file))); [reflexivity|].
  cbn [map]. rewrite !last_cons_default. reflexivity.
Qed.

Lemma last_map_in : forall (A B : Type) (g : A -> B) (l : list A) (x : A) (d : B),
  In x l -> exists y, In y l /\ last (map g l) d = g y.
Proof.
  intros A B g l. induction l as [|a rest IH]; intros x d Hx; [destruct Hx|].
  destruct rest as [|b rest'].
  - exists a; split; [left; reflexivity | reflexivity].
  - destruct (IH b d (or_introl eq_refl)) as [y [Hy Hl]].
    exists y; split; [right; exact Hy|]. exact Hl.
Qed.

(** When [findModule] reports an error, every candidate file failed to
    open, and the reported error is one of theirs: never success. *)
Theorem findModule_not_found : forall importSearchPaths moduleID importLoc err,
  findModule importSearchPaths moduleID importLoc = NotFound err ->
  is_error err = true
  /\ forall f, In f (candidates importSearchPaths moduleID importLoc) ->
               is_error (getFile f) = true.
Proof.
  intros paths moduleID importLoc err H.
  rewrite findModule_first_candidate in H.
  destruct (find _ _) eqn:Ef; [discriminate H|]. injection H as <-.
  assert (Hall : forall f, In f (candidates paths moduleID importLoc) ->
                           is_error (getFile f) = true).
  { intros f Hin. pose proof (find_none _ _ Ef f Hin) as Hn. simpl in Hn.
    destruct (is_error (getFile f)); [reflexivity | discriminate Hn]. }
  split; [|exact Hall].
  assert (Hin : In (moduleFilename moduleID) (candidates paths moduleID importLoc)).
  { unfold candidates. apply in_or_app. right. left. reflexivity. }
  destruct (last_map_in _ _ getFile _ _ success Hin) as [y [Hy ->]].
  apply Hall; exact Hy.
Qed.







(** [loadModule] on an empty path fails the [path[0]] assertion, and on a
    path of more than one name (a submodule) returns [nullptr] without
    touching the context. *)
Theorem loadModule_path_shape : forall skipBodies importSearchPaths ctx importLoc path,
  (path = [] ->
     loadModule skipBodies importSearchPaths ctx importLoc path
     = LoadAssertionFailure "Invalid index!") /\
  (1 < length path ->
     loadModule skipBodies importSearchPaths ctx importLoc path = NullModule ctx).
Proof.
  intros skip paths ctx importLoc path. unfold loadModule. split.
  - intros ->. reflexivity.
  - intros H. apply Nat.ltb_lt in H. rewrite H. reflexivity.
Qed.

(** When the module file cannot be found, [loadModule] returns [nullptr];
    it emits exactly one [sema_opening_import] diagnostic, at the module
    name, unless the error is [no_such_file_or_directory], and leaves the rest
    of the context as it was. *)
Theorem loadModule_not_found : forall skipBodies importSearchPaths ctx importLoc
  name nameLoc err,
  findModule importSearchPaths name nameLoc = NotFound err ->
  exists ctx',
    loadModule skipBodies importSearchPaths ctx importLoc [(name, nameLoc)] = NullModule ctx'
    /\ loadedModules ctx' = loadedModules ctx
    /\ sourceBuffers ctx' = sourceBuffers ctx
    /\ debugConstraintSolver ctx' = debugConstraintSolver ctx
    /\ phaseLog ctx' = phaseLog ctx
    /\ diagnostics ctx' =
       (if is_no_such_file err then diagnostics ctx
        else diagnostics ctx ++ [sema_opening_import nameLoc name (message err)])%list.
Proof.
  intros skip paths ctx importLoc name nameLoc err Hf.
  unfold loadModule. simpl. rewrite Hf.
  destruct (is_no_such_file err); eexists; repeat split; reflexivity.
Qed.


(** [loadModule] restores [DebugConstraintSolver] and runs the phases with
    it turned off: parsing (delaying bodies exactly when [SkipBodies]), then
    delayed parsing and name binding when bodies are skipped, type checking
    otherwise. *)
Theorem loadModule_debug_and_phases : forall skipBodies importSearchPaths ctx importLoc
  name nameLoc m ctx',
  loadModule skipBodies importSearchPaths ctx importLoc [(name, nameLoc)] = Loaded m ctx' ->
  debugConstraintSolver ctx' = debugConstraintSolver ctx
  /\ exists bufferID, module_files m = [bufferID]
     /\ phaseLog ctx' =
        (phaseLog ctx ++
         if skipBodies
         then [(ParseIntoSourceFile bufferID true, false); (PerformDelayedParsing, false);
               (PerformNameBinding, false)]
         else [(ParseIntoSourceFile bufferID false, false); (PerformTypeChecking, false)])%list.
Proof.
  intros skip paths ctx importLoc name nameLoc m ctx' Hl.
  unfold loadModule in Hl. simpl in Hl.
  destruct (findModule paths name nameLoc) as [f|err];
    [|destruct (is_no_such_file err); discriminate Hl].
  destruct (indexOf f (sourceBuffers ctx)) as [id|];
    destruct skip; injection Hl as <- <-; simpl; (split; [reflexivity|]);
    eexists; (split; [reflexivity|]); rewrite <- !app_assoc; reflexivity.
Qed.



End SourceLoaderModel.

(** A small file system: [lib/Foo.swift] opens, [Bad.swift] fails with an
    error other than "no such file", everything else does not exist. *)
Definition sampleGetFile (f : string) : error_code :=
  if String.eqb f "lib/Foo.swift" then success
  else if String.eqb f "Bad.swift" then other_error 13
  else no_such_file_or_directory.

Definition sampleParentPath (s : string) : string :=
  if String.eqb s "lib/Main.swift" then "lib" else "".

Definition sampleAppend (dir file : string) : string := dir ++ "/" ++ file.

Definition sampleMessage (e : error_code) : string :=
  match e with
  | success => "success"
  | no_such_file_or_directory => "No such file or directory"
  | other_error _ => "Permission denied"
  end.

Definition sampleCtx : ASTContext := mkCtx [] ["lib/Main.swift"] [] true [].

Lemma loadModule_path_shape_witness :
  loadModule sampleGetFile sampleParentPath sampleAppend sampleMessage false [] sampleCtx
    Datatypes.None [("A", Datatypes.None); ("B", Datatypes.None)] = NullModule sampleCtx.
Proof.
  apply (proj2 (loadModule_path_shape sampleGetFile sampleParentPath sampleAppend
                  sampleMessage false [] sampleCtx Datatypes.None
                  [("A", Datatypes.None); ("B", Datatypes.None)])).
  simpl; lia.
Defined.

Lemma loadModule_not_found_witness :
  exists ctx',
    loadModule sampleGetFile sampleParentPath sampleAppend sampleMessage false [] sampleCtx
      Datatypes.None [("Bad", Datatypes.None)] = NullModule ctx'
    /\ loadedModules ctx' = loadedModules sampleCtx
    /\ sourceBuffers ctx' = sourceBuffers sampleCtx
    /\ debugConstraintSolver ctx' = debugConstraintSolver sampleCtx
    /\ phaseLog ctx' = phaseLog sampleCtx
    /\ diagnostics ctx' =
       [sema_opening_import Datatypes.None "Bad" "Permission denied"].
Proof.
  apply (loadModule_not_found sampleGetFile sampleParentPath sampleAppend sampleMessage
           false [] sampleCtx Datatypes.None "Bad" Datatypes.None (other_error 13)).
  reflexivity.
Defined.

(** The context after importing [Foo] from [lib/Main.swift] into
    [sampleCtx] without skipping bodies. *)
Definition sampleCtxAfterFoo : ASTContext :=
  mkCtx [("Foo", mkModule "Foo" [1])] ["lib/Main.swift"; "lib/Foo.swift"] [] true
        [(ParseIntoSourceFile 1 false, false); (PerformTypeChecking, false)].


Lemma loadModule_debug_and_phases_witness :
  debugConstraintSolver sampleCtxAfterFoo = debugConstraintSolver sampleCtx
  /\ exists bufferID, module_files (mkModule "Foo" [1]) = [bufferID]
     /\ phaseLog sampleCtxAfterFoo =
        (phaseLog sampleCtx ++
         [(ParseIntoSourceFile bufferID false, false); (PerformTypeChecking, false)])%list.
Proof.
  apply (loadModule_debug_and_phases sampleGetFile sampleParentPath sampleAppend sampleMessage
           false [] sampleCtx Datatypes.None "Foo" (Some "lib/Main.swift")
           (mkModule "Foo" [1]) sampleCtxAfterFoo); reflexivity.
Defined.



Lemma findModule_not_found_witness :
  is_error (other_error 13) = true
  /\ forall f, In f (candidates sampleParentPath sampleAppend [] "Bad" Datatypes.None) ->
               is_error (sampleGetFile f) = true.
Proof.
  apply (findModule_not_found sampleGetFile sampleParentPath sampleAppend [] "Bad"
           Datatypes.None (other_error 13)).
  reflexivity.
Defined.
